(** * run_upstream.py: argument loading, dataloader selection and dispatch

    A shallow embedding of [src/run_upstream.py].  The script is glue code:
    it parses arguments, resolves a checkpoint to resume from, prepares a
    checkpoint directory and hands over to collaborators that live in other
    modules.  Python values are an inductive type, a [Namespace] and a [dict]
    are finite maps with string keys, the pure string processing
    ([str.split], [int], [sorted], [os.path.join]) is written out, and every
    call that leaves the file (the [os], [glob], [yaml], [torch], [random]
    libraries and the [dataloader], [transformer] and [rnn] modules) is an
    event of a small free monad, answered by an environment that may depend
    on everything that happened before.

    What is taken as given: the namespace [parser.parse_args()] returns is
    the input of [get_upstream_args]; strings are byte strings, and [int]
    reads them as ASCII text: it knows the ASCII digits and the blanks of
    C's [isspace], and no digit or blank outside ASCII; a dict is keyed
    by strings; what a collaborator does inside a call, to the file system
    or to the objects it is handed, is not part of this file, with the one
    exception of [parse_prune_heads], which is called for its effect on the
    config and answers with the config it leaves behind. *)

From Stdlib Require Import ZArith String Ascii List Lia.
From Stdlib Require Import Floats.SpecFloat.
From stdpp Require Import gmap strings list pretty.

Set Warnings "-register-all".
Open Scope string_scope.
Open Scope list_scope.
Open Scope Z_scope.

(** ** Python values *)

(** The values that [argparse], [yaml.load] and an unpickled checkpoint hand
    to this script: scalars, lists, dicts and [Namespace] objects.  Dict keys
    are strings (the script only ever looks string keys up). *)
Inductive pyval : Type :=
| VNone
| VBool (b : bool)
| VInt (z : Z)
| VFloat (f : spec_float)
| VStr (s : string)
| VList (l : list pyval)
| VDict (d : gmap string pyval)
| VObj (d : gmap string pyval).

(** The exceptions the script raises itself, together with those of the
    interpreter; [External] is an error raised inside a library call. *)
Inductive exn : Type :=
| AssertionError
| ValueError
| IndexError
| KeyError (k : string)
| TypeError
| AttributeError (k : string)
| RuntimeError (msg : string) (arg : pyval)
| NotImplementedError
| External (name : string).

Inductive result (A : Type) : Type :=
| Ok (a : A)
| Raise (x : exn).
Arguments Ok {A} a.
Arguments Raise {A} x.

Definition result_bind {A B} (r : result A) (k : A -> result B) : result B :=
  match r with
  | Ok a => k a
  | Raise x => Raise x
  end.

#[global] Instance result_mret : MRet result := fun _ a => Ok a.
#[global] Instance result_mbind : MBind result := fun _ _ k r => result_bind r k.

(** [bool(v)] *)
Definition py_bool (v : pyval) : bool :=
  match v with
  | VNone => false
  | VBool b => b
  | VInt z => negb (z =? 0)
  | VFloat (S754_zero _) => false
  | VFloat _ => true
  | VStr s => negb (String.eqb s "")
  | VList l => match l with [] => false | _ => true end
  | VDict d => negb (bool_decide (d = ∅))
  | VObj _ => true
  end.

(** [v == s] for a string literal [s]: only a [str] equals a [str]. *)
Definition py_eq_str (v : pyval) (s : string) : bool :=
  match v with
  | VStr s' => String.eqb s' s
  | _ => false
  end.

(** [v is None] *)
Definition py_is_none (v : pyval) : bool :=
  match v with
  | VNone => true
  | _ => false
  end.

(** [v[k]] for a string key [k]. *)
Definition py_getitem (v : pyval) (k : string) : result pyval :=
  match v with
  | VDict d => match d !! k with Some x => Ok x | None => Raise (KeyError k) end
  | _ => Raise TypeError
  end.

(** [v[k] = x] for a string key [k]. *)
Definition py_setitem (v : pyval) (k : string) (x : pyval) : result pyval :=
  match v with
  | VDict d => Ok (VDict (<[k := x]> d))
  | _ => Raise TypeError
  end.

(** [s[i:]] starts with [p]. *)
Fixpoint prefixb (p s : string) : bool :=
  match p, s with
  | EmptyString, _ => true
  | String a p', String b s' => Ascii.eqb a b && prefixb p' s'
  | String _ _, EmptyString => false
  end.

Fixpoint substringb (p s : string) : bool :=
  prefixb p s ||
  match s with
  | EmptyString => false
  | String _ s' => substringb p s'
  end.

(** [k in v] for a string literal [k]: key membership in a dict, attribute
    membership in a [Namespace], element membership in a list, substring
    test in a string. *)
Definition py_in (k : string) (v : pyval) : result bool :=
  match v with
  | VDict d | VObj d => Ok (bool_decide (is_Some (d !! k)))
  | VList l => Ok (existsb (fun x => py_eq_str x k) l)
  | VStr s => Ok (substringb k s)
  | _ => Raise TypeError
  end.

(** [vars(v)] *)
Definition py_vars (v : pyval) : result (gmap string pyval) :=
  match v with
  | VObj d => Ok d
  | _ => Raise TypeError
  end.

(** [ns.k] on a [Namespace]. *)
Definition getattr (ns : gmap string pyval) (k : string) : result pyval :=
  match ns !! k with
  | Some v => Ok v
  | None => Raise (AttributeError k)
  end.

(** [setattr(ns, k, v)] *)
Definition setattr (ns : gmap string pyval) (k : string) (v : pyval)
  : gmap string pyval := <[k := v]> ns.

(** The right operand of [+] when the left one is a [str], and a path
    component handed to [os.path.join]: a [str], or a [TypeError]. *)
Definition py_as_str (v : pyval) : result string :=
  match v with
  | VStr s => Ok s
  | _ => Raise TypeError
  end.

(** [v.split(sep)[-1]]: only a [str] has the method. *)
Definition py_split_attr (v : pyval) : result string :=
  match v with
  | VStr s => Ok s
  | _ => Raise (AttributeError "split")
  end.

(** ** Strings *)

(** [s.split(sep)] for a one-character separator, which is what both call
    sites pass. *)
Fixpoint py_split (sep : ascii) (s : string) : list string :=
  match s with
  | EmptyString => [EmptyString]
  | String c s' =>
      if Ascii.eqb c sep then EmptyString :: py_split sep s'
      else match py_split sep s' with
           | x :: r => String c x :: r
           | [] => [String c EmptyString]
           end
  end.

(** [l[-1]] *)
Definition py_last {A} (l : list A) : result A :=
  match last l with
  | Some x => Ok x
  | None => Raise IndexError
  end.

(** [l[0]] *)
Definition py_head {A} (l : list A) : result A :=
  match l with
  | x :: _ => Ok x
  | [] => Raise IndexError
  end.

Definition is_digit (c : ascii) : bool :=
  let n := N_of_ascii c in ((48 <=? n) && (n <=? 57))%N.

Definition digit_val (c : ascii) : Z := Z.of_N (N_of_ascii c) - 48.

(** The characters [int] skips around the number in an ASCII string: tab,
    line feed, vertical tab, form feed, carriage return and the space.  (The
    separators 0x1c to 0x1f, which [str.strip] removes, are not among them:
    [int('\x1c7')] is a [ValueError].) *)
Definition is_space (c : ascii) : bool :=
  let n := N_of_ascii c in
  (((9 <=? n) && (n <=? 13)) || (n =? 32))%N.

Fixpoint lstrip (s : string) : string :=
  match s with
  | String c s' => if is_space c then lstrip s' else s
  | EmptyString => EmptyString
  end.

Definition strip (s : string) : string :=
  String.rev (lstrip (String.rev (lstrip s))).

(** Decimal digits with single underscores between them; [seen] tells
    whether the previous character was a digit. *)
Fixpoint int_digits (acc : Z) (seen : bool) (s : string) : option Z :=
  match s with
  | EmptyString => if seen then Some acc else None
  | String c s' =>
      if is_digit c then int_digits (10 * acc + digit_val c) true s'
      else if Ascii.eqb c "_" then
             if seen then int_digits acc false s' else None
      else None
  end.

(** [int(s)] in base ten on ASCII input: surrounding white space, an optional
    sign, digits. Anything else is a [ValueError].  (The interpreter's cap on
    the number of digits is far above what a file name can hold.) *)
Definition py_int (s : string) : result Z :=
  let body :=
    match strip s with
    | String "-" r => option_map Z.opp (int_digits 0 false r)
    | String "+" r => int_digits 0 false r
    | r => int_digits 0 false r
    end in
  match body with
  | Some z => Ok z
  | None => Raise ValueError
  end.

(** [os.path.join(a, b)] on POSIX. *)
Definition path_join (a b : string) : string :=
  if prefixb "/" b then b
  else if String.eqb a "" || prefixb "/" (String.rev a) then (a ++ b)%string
  else (a ++ "/" ++ b)%string.

(** ** Sorting *)

(** [sorted(l, key=...)] is stable; on the keyed list it is insertion from
    the right, an element going in front of the first key that is not
    smaller. *)
Fixpoint insert_by_key {A} (x : Z * A) (l : list (Z * A)) : list (Z * A) :=
  match l with
  | [] => [x]
  | y :: l' => if x.1 <=? y.1 then x :: y :: l' else y :: insert_by_key x l'
  end.

Fixpoint sort_by_key {A} (l : list (Z * A)) : list (Z * A) :=
  match l with
  | [] => []
  | x :: l' => insert_by_key x (sort_by_key l')
  end.

(** The key function is applied to every element, left to right, before any
    comparison; the first failure is the error of the whole call. *)
Fixpoint keyed {A} (key : A -> result Z) (l : list A) : result (list (Z * A)) :=
  match l with
  | [] => Ok []
  | x :: l' =>
      k ← key x;
      r ← keyed key l';
      Ok ((k, x) :: r)
  end.

Definition py_sorted {A} (key : A -> result Z) (l : list A) : result (list A) :=
  r ← keyed key l;
  Ok (map snd (sort_by_key r)).

(** The key of line 74: [int(pth.split('-')[-1].split('.')[0])]. *)
Definition ckpt_step (pth : string) : result Z :=
  tail ← py_last (py_split "-" pth);
  stem ← py_head (py_split "." tail);
  py_int stem.

(** ** Calls that leave the file *)

(** Objects of the collaborating modules (a dataloader, a runner, a model, an
    open file) are opaque handles. *)
Definition obj := positive.

Inductive generator := GRandom | GNumpy | GTorch | GCudaAll.

(** A printed line is the concatenation of [str] of its pieces. *)
Inductive event : Type :=
| EIsDir (p : string)                    (* os.path.isdir(p) *)
| EGlob (pattern : string)               (* glob.glob(pattern) *)
| ETorchLoad (p : string)                (* torch.load(p, map_location='cpu') *)
| EOpen (p : pyval)                      (* open(p, 'r') *)
| EYamlLoad (f : obj)                    (* yaml.load(f, Loader=yaml.FullLoader) *)
| EParsePruneHeads (config : pyval)      (* parse_prune_heads(config), in place *)
| EExists (p : pyval)                    (* os.path.exists(p) *)
| EPrint (pieces : list pyval)           (* print(...) *)
| EGetDataloader (split load : string) (use_gpu : pyval) (run_mam : bool)
    (mam_config : pyval) (kwargs : gmap string pyval)
| EGetOnlineDataloader (args : gmap string pyval) (config : pyval)
    (is_train : bool)
| ERandint (a b : Z)                     (* random.randint(a, b) *)
| EMakedirs (p : pyval)                  (* os.makedirs(p) *)
| ECopyfile (src dst : string)           (* shutil.copyfile(src, dst) *)
| EImport (module : string)              (* from module import ... *)
| ETransformerRunner (args : gmap string pyval) (config : pyval)
    (dataloader : obj) (ckpdir : pyval)  (* transformer.runner.Runner(...) *)
| ESetModel (runner : obj)               (* runner.set_model() *)
| ETrain (runner : obj)                  (* runner.train() *)
| ETransformer (options : gmap string pyval) (input_dim : pyval)
| ERnnRunner (seed : pyval) (train : bool) (* rnn.runner.Runner(seed, train=..) *)
| ESeed (g : generator) (seed : pyval)   (* the four seeding calls *)
| ECudaAvailable                         (* torch.cuda.is_available() *)
| ESetCudnn (flag : string) (b : bool).  (* torch.backends.cudnn.<flag> = b *)

(** What each call returns when it returns. *)
Definition resp (e : event) : Type :=
  match e with
  | EIsDir _ | EExists _ | ECudaAvailable => bool
  | EGlob _ => list string
  | ETorchLoad _ | EYamlLoad _ | EParsePruneHeads _ => pyval
  | EOpen _ | EGetDataloader _ _ _ _ _ _ | EGetOnlineDataloader _ _ _
  | ETransformerRunner _ _ _ _ | ETransformer _ _ | ERnnRunner _ _ => obj
  | ERandint _ _ => Z
  | EPrint _ | EMakedirs _ | ECopyfile _ _ | EImport _ | ESetModel _
  | ETrain _ | ESeed _ _ | ESetCudnn _ _ => unit
  end.

(** A program is a finite tree: it returns, raises, or makes a call and goes
    on with the answer.  The script has no loop over calls. *)
Inductive prog (A : Type) : Type :=
| Ret (a : A)
| Throw (x : exn)
| Vis (e : event) (k : resp e -> prog A).
Arguments Ret {A} a.
Arguments Throw {A} x.
Arguments Vis {A} e k.

Fixpoint prog_bind {A B} (p : prog A) (k : A -> prog B) : prog B :=
  match p with
  | Ret a => k a
  | Throw x => Throw x
  | Vis e c => Vis e (fun r => prog_bind (c r) k)
  end.

#[global] Instance prog_mret : MRet prog := fun _ a => Ret a.
#[global] Instance prog_mbind : MBind prog := fun _ _ k p => prog_bind p k.

Definition call (e : event) : prog (resp e) := Vis e Ret.

Definition lift {A} (r : result A) : prog A :=
  match r with
  | Ok a => Ret a
  | Raise x => Throw x
  end.

(** One line of the log: the call and how it ended. *)
Inductive entry : Type :=
| Entry (e : event) (r : result (resp e)).

Definition entry_event (en : entry) : event :=
  match en with Entry e _ => e end.

(** The environment answers a call knowing everything that happened so far;
    an answer is a value or an exception, and no exception is caught anywhere
    in the script. *)
Definition env := list entry -> forall e : event, result (resp e).

Fixpoint run {A} (h : env) (t : list entry) (p : prog A)
  : list entry * result A :=
  match p with
  | Ret a => (t, Ok a)
  | Throw x => (t, Raise x)
  | Vis e k =>
      match h t e with
      | Ok r => run h (t ++ [Entry e (Ok r)]) (k r)
      | Raise x => (t ++ [Entry e (Raise x)], Raise x)
      end
  end.

(** ** Upstream arguments *)

Inductive run_choice := Transformer | Apc.

Definition run_name (r : run_choice) : string :=
  match r with
  | Transformer => "transformer"
  | Apc => "apc"
  end.

(** What [parser.parse_args()] returns for the parser of lines 40-59: one
    field per flag, typed by the flag's declaration. *)
Record cli_args : Type := {
  cli_resume : option string;
  cli_run : option run_choice;
  cli_config : option string;
  cli_name : option string;
  cli_ckpdir : string;
  cli_seed : Z;
  cli_test : string;
  cli_cpu : bool;
  cli_multi_gpu : bool;
  cli_test_reconstruct : bool;
  cli_online_config : option string
}.

(** The parser's defaults: no flag given. *)
Definition cli_default : cli_args := {|
  cli_resume := None; cli_run := None; cli_config := None;
  cli_name := None; cli_ckpdir := ""; cli_seed := 1337; cli_test := "";
  cli_cpu := false; cli_multi_gpu := false; cli_test_reconstruct := false;
  cli_online_config := None
|}.

Definition opt_str (o : option string) : pyval :=
  match o with
  | Some s => VStr s
  | None => VNone
  end.

(** [vars(args)] of the parsed namespace. *)
Definition vars_of_cli (c : cli_args) : gmap string pyval :=
  list_to_map
    [("resume", opt_str (cli_resume c));
     ("run", opt_str (run_name <$> cli_run c));
     ("config", opt_str (cli_config c));
     ("name", opt_str (cli_name c));
     ("ckpdir", VStr (cli_ckpdir c));
     ("seed", VInt (cli_seed c));
     ("test", VStr (cli_test c));
     ("cpu", VBool (cli_cpu c));
     ("multi_gpu", VBool (cli_multi_gpu c));
     ("test_reconstruct", VBool (cli_test_reconstruct c));
     ("online_config", opt_str (cli_online_config c))].

(** Lines 79-83: [old_dict.update(new_dict)], the new value winning, and a
    fresh [Namespace] of the result. *)
Definition update_args (old : gmap string pyval) (new : pyval)
  : result (gmap string pyval) :=
  let old_dict := old in
  new_dict ← py_vars new;
  Ok (new_dict ∪ old_dict).

(** Lines 71-77: the checkpoint to resume from. *)
Definition resolve_resume (resume : string) : prog string :=
  isdir ← call (EIsDir resume);
  if (isdir : bool) then
    ckpts ← call (EGlob (resume ++ "/*.ckpt")%string);
    _ ← (if (0 <? Z.of_nat (length (ckpts : list string))) then Ret tt
         else Throw AssertionError);
    ckpts ← lift (py_sorted ckpt_step ckpts);
    lift (py_last ckpts)
  else Ret resume.

Definition get_upstream_args (c : cli_args)
  : prog (gmap string pyval * pyval) :=
  let args := vars_of_cli c in
  match cli_resume c with
  | None =>
      cpu ← lift (getattr args "cpu");
      let args := setattr args "gpu" (VBool (negb (py_bool cpu))) in
      path ← lift (getattr args "config");
      f ← call (EOpen path);
      config ← call (EYamlLoad f);
      config ← call (EParsePruneHeads config);
      online_path ← lift (getattr args "online_config");
      config ← (if negb (py_is_none online_path) then
                  f ← call (EOpen online_path);
                  online_config ← call (EYamlLoad f);
                  lift (py_setitem config "online" online_config)
                else Ret config);
      Ret (args, config)
  | Some resume =>
      resume_ckpt ← resolve_resume resume;
      ckpt ← call (ETorchLoad resume_ckpt);
      settings ← lift (py_getitem ckpt "Settings");
      paras ← lift (py_getitem settings "Paras");
      args ← lift (update_args args paras);
      settings ← lift (py_getitem ckpt "Settings");
      config ← lift (py_getitem settings "Config");
      let args := setattr args "resume" (VStr resume_ckpt) in
      Ret (args, config)
  end.

(** ** Dataloader *)

(** The keywords line 106 passes by name; [**config['dataloader']] may not
    repeat one of them. *)
Definition explicit_keywords : list string :=
  ["split"; "load"; "use_gpu"; "run_mam"; "mam_config"].

Definition py_kwargs (v : pyval) : result (gmap string pyval) :=
  match v with
  | VDict d =>
      if existsb (fun k => bool_decide (is_Some (d !! k))) explicit_keywords
      then Raise TypeError else Ok d
  | _ => Raise TypeError
  end.

Definition get_dataloader (args : gmap string pyval) (config : pyval)
  : prog obj :=
  dl ← lift (py_getitem config "dataloader");
  data_path ← lift (py_getitem dl "data_path");
  found ← call (EExists data_path);
  if negb found then
    dl ← lift (py_getitem config "dataloader");
    data_path ← lift (py_getitem dl "data_path");
    Throw (RuntimeError "[run_upstream] - Data path not valid:" data_path)
  else
    dl ← lift (py_getitem config "dataloader");
    train_set ← lift (py_getitem dl "train_set");
    dl ← lift (py_getitem config "dataloader");
    data_path ← lift (py_getitem dl "data_path");
    data_path ← lift (py_as_str data_path);
    _ ← call (EPrint [VStr "[run_upstream] - Loading input data: "; train_set;
                      VStr " from "; VStr data_path]);
    _ ← call (EPrint [VStr "[run_upstream] - getting train dataloader..."]);
    runner ← lift (py_getitem config "runner");
    duo_feature ← lift (py_getitem runner "duo_feature");
    let load := if py_bool duo_feature then "duo" else "acoustic" in
    _ ← (if String.eqb load "duo" then
           dl ← lift (py_getitem config "dataloader");
           train_set ← lift (py_getitem dl "train_set");
           dl ← lift (py_getitem config "dataloader");
           target_path ← lift (py_getitem dl "target_path");
           target_path ← lift (py_as_str target_path);
           call (EPrint [VStr "[run_upstream] - Loading duo data: "; train_set;
                         VStr " from "; VStr target_path])
         else Ret tt);
    use_gpu ← lift (getattr args "gpu");
    mam_config ← lift (py_getitem config "transformer");
    dl ← lift (py_getitem config "dataloader");
    kwargs ← lift (py_kwargs dl);
    call (EGetDataloader "train" load use_gpu true mam_config kwargs).

(** ** Transformer: training *)

(** Lines 116-128: the import, then the block the source heads [# mkdir].
    The checkpoint directory is resolved, created when absent, and the
    config files are copied into it.  The assignment to [args.name] is
    visible to everything that receives [args] afterwards. *)
Definition run_transformer_setup (args : gmap string pyval)
  : prog (gmap string pyval * pyval) :=
  _ ← call (EImport "transformer.runner");
  ckpdir_arg ← lift (getattr args "ckpdir");
  '(args, ckpdir) ←
    (if py_eq_str ckpdir_arg "" then
       name ← lift (getattr args "name");
       args ← (if py_is_none name then
                 n ← call (ERandint 0 999);
                 Ret (setattr args "name" (VStr ("run_" ++ pretty (n : Z))%string))
               else Ret args);
       name ← lift (getattr args "name");
       name ← lift (py_as_str name);
       Ret (args, VStr (path_join "result/result_transformer/" name))
     else
       ckpdir ← lift (getattr args "ckpdir");
       Ret (args, ckpdir));
  found ← call (EExists ckpdir);
  _ ← (if negb found then call (EMakedirs ckpdir) else Ret tt);
  config_path ← lift (getattr args "config");
  src ← lift (py_split_attr config_path);
  base ← lift (py_last (py_split "/" src));
  dir ← lift (py_as_str ckpdir);
  _ ← call (ECopyfile src (path_join dir base));
  online_path ← lift (getattr args "online_config");
  _ ← (if negb (py_is_none online_path) then
         src ← lift (py_split_attr online_path);
         base ← lift (py_last (py_split "/" src));
         dir ← lift (py_as_str ckpdir);
         call (ECopyfile src (path_join dir base))
       else Ret tt);
  Ret (args, ckpdir).

(** Lines 136-139, the block headed [# train]. *)
Definition run_transformer_train (args : gmap string pyval) (config : pyval)
    (dataloader : obj) (ckpdir : pyval) : prog unit :=
  runner ← call (ETransformerRunner args config dataloader ckpdir);
  _ ← call (ESetModel runner);
  call (ETrain runner).

Definition run_transformer (args : gmap string pyval) (config : pyval)
  : prog unit :=
  '(args, ckpdir) ← run_transformer_setup args;
  online ← lift (py_in "online" config);
  dataloader ← (if (online : bool) then call (EGetOnlineDataloader args config true)
                else get_dataloader args config);
  run_transformer_train args config dataloader ckpdir.

(** ** Transformer: testing *)

Definition test_options (ckpt_file : pyval) : gmap string pyval :=
  list_to_map
    [("ckpt_file", ckpt_file);
     ("load_pretrain", VStr "True");
     ("no_grad", VStr "True");
     ("dropout", VStr "default");
     ("spec_aug", VStr "False");
     ("spec_aug_prev", VStr "True");
     ("weighted_sum", VStr "False");
     ("select_layer", VInt (-1))].

Definition test_transformer (args : gmap string pyval) (input_dim : pyval)
  : prog obj :=
  _ ← call (EImport "transformer.nn_transformer");
  test ← lift (getattr args "test");
  let options := test_options test in
  upstream_model ← call (ETransformer options input_dim);
  test ← lift (getattr args "test");
  _ ← call (EPrint [VStr "[upstream runner] - successfully loaded, valid checkpoint: ";
                    VStr " "; test]);
  Ret (upstream_model : obj).

(** ** APC *)

Definition run_apc (seed : pyval) : prog unit :=
  _ ← call (EImport "rnn.runner");
  runner ← call (ERnnRunner seed true);
  call (ETrain runner).

(** ** Main *)

(** Lines 179-184. *)
Definition fix_seed (args : gmap string pyval) : prog unit :=
  seed ← lift (getattr args "seed");
  _ ← call (ESeed GRandom seed);
  _ ← call (ESeed GNumpy seed);
  _ ← call (ESeed GTorch seed);
  cuda ← call ECudaAvailable;
  _ ← (if (cuda : bool) then call (ESeed GCudaAll seed) else Ret tt);
  _ ← call (ESetCudnn "deterministic" true);
  call (ESetCudnn "benchmark" true).

(** Lines 186-197. *)
Definition dispatch (args : gmap string pyval) (config : pyval) : prog unit :=
  run_sel ← lift (getattr args "run");
  if py_eq_str run_sel "transformer" then
    test ← lift (getattr args "test");
    if negb (py_eq_str test "") then
      tr ← lift (py_getitem config "transformer");
      input_dim ← lift (py_getitem tr "input_dim");
      _ ← test_transformer args input_dim;
      Ret tt
    else run_transformer args config
  else if py_eq_str run_sel "apc" then
    test ← lift (getattr args "test");
    if negb (py_eq_str test "") then Throw NotImplementedError
    else
      seed ← lift (getattr args "seed");
      run_apc seed
  else Ret tt.

Definition main (c : cli_args) : prog unit :=
  '(args, config) ← get_upstream_args c;
  _ ← fix_seed args;
  dispatch args config.

(** ** Vocabulary of the statements *)

Fixpoint occurs (c : ascii) (s : string) : bool :=
  match s with
  | EmptyString => false
  | String a s' => Ascii.eqb a c || occurs c s'
  end.

Fixpoint all_digits (s : string) : bool :=
  match s with
  | EmptyString => true
  | String c s' => is_digit c && all_digits s'
  end.

(** The number a string of decimal digits denotes. *)
Fixpoint digits_value (acc : Z) (s : string) : Z :=
  match s with
  | EmptyString => acc
  | String c s' => digits_value (10 * acc + digit_val c) s'
  end.

(** A checkpoint name that ends in a hyphen, a decimal step and an
    extension: [<anything>-<digits>.<extension>], the extension holding no
    further hyphen. *)
Definition step_named (pth : string) (n : Z) : Prop :=
  ∃ pre ds ext : string,
    pth = (pre ++ "-" ++ ds ++ "." ++ ext)%string ∧
    ds ≠ EmptyString ∧ all_digits ds = true ∧ occurs "-" ext = false ∧
    n = digits_value 0 ds.

(** The last string in the order [sorted] would use without a key. *)
Definition lex_max (a b : string) : string :=
  if String.leb a b then b else a.

Definition lex_last (l : list string) : option string :=
  match l with
  | [] => None
  | x :: r => Some (fold_left lex_max r x)
  end.

(** [os.path.basename] on POSIX: what follows the last slash. *)
Fixpoint basename (s : string) : string :=
  match s with
  | EmptyString => EmptyString
  | String c s' =>
      if occurs "/" s' then basename s'
      else if Ascii.eqb c "/" then s' else s
  end.

(** Every call a program can make satisfies [P]. *)
Fixpoint all_calls {A} (P : event → Prop) (p : prog A) : Prop :=
  match p with
  | Ret _ | Throw _ => True
  | Vis e k => P e ∧ ∀ r, all_calls P (k r)
  end.

(** Kinds of calls. *)
Definition reads_settings (e : event) : bool :=
  match e with
  | EIsDir _ | EGlob _ | ETorchLoad _ | EOpen _ | EYamlLoad _
  | EParsePruneHeads _ => true
  | _ => false
  end.

Definition is_seed_call (e : event) : bool :=
  match e with
  | ESeed _ _ | ECudaAvailable | ESetCudnn _ _ => true
  | _ => false
  end.

Definition is_runner_call (e : event) : bool :=
  match e with
  | ETransformerRunner _ _ _ _ | ESetModel _ | ETrain _ => true
  | _ => false
  end.

Definition writes_fs (e : event) : bool :=
  match e with
  | EMakedirs _ | ECopyfile _ _ => true
  | _ => false
  end.

Definition builds_dataloader (e : event) : bool :=
  match e with
  | EGetDataloader _ _ _ _ _ _ | EGetOnlineDataloader _ _ _ => true
  | _ => false
  end.

Definition loads_model (e : event) : bool :=
  match e with
  | EImport _ | ETransformer _ _ | ETransformerRunner _ _ _ _
  | ERnnRunner _ _ | ESetModel _ | ETrain _ => true
  | _ => false
  end.

(** The calls of [get_dataloader]. *)
Definition is_static_call (e : event) : bool :=
  match e with
  | EExists _ | EPrint _ | EGetDataloader _ _ _ _ _ _ => true
  | _ => false
  end.

(** The calls of the test path of the transformer. *)
Definition is_test_call (e : event) : bool :=
  match e with
  | EImport m => String.eqb m "transformer.nn_transformer"
  | ETransformer _ _ | EPrint _ => true
  | _ => false
  end.

(** The directory of a run that was given neither [--ckpdir] nor [--name]
    and drew [n]. *)
Definition default_dir (n : Z) : string :=
  ("result/result_transformer/run_" ++ pretty n)%string.

(** [os.path.join] puts a slash after such a directory: it is not empty and
    does not end in one. *)
Definition join_ok (n : Z) : bool :=
  negb (String.eqb (default_dir n) "") &&
  negb (prefixb "/" (String.rev (default_dir n))).

(** The library's contract for [random.randint(a, b)]. *)
Definition randint_in_range (h : env) : Prop :=
  ∀ t a b n, h t (ERandint a b) = Ok n → a ≤ n ≤ b.

(** The feature mode line 103 derives from the config. *)
Definition mode_of (config : pyval) (load : string) : Prop :=
  ∃ runner duo_feature,
    py_getitem config "runner" = Ok runner ∧
    py_getitem runner "duo_feature" = Ok duo_feature ∧
    load = if py_bool duo_feature then "duo" else "acoustic".

(** A call of the dataloader constructor asks for the training split in
    the mode of the config. *)
Definition loads_mode_of (config : pyval) (e : event) : Prop :=
  match e with
  | EGetDataloader split load _ run_mam _ _ =>
      split = "train" ∧ run_mam = true ∧ mode_of config load
  | _ => True
  end.

(** The command line asks for a test of model [r], and no checkpoint is
    resumed. *)
Definition flags_test (c : cli_args) (r : run_choice) : Prop :=
  cli_resume c = None ∧ cli_run c = Some r ∧ cli_test c ≠ "".

(** The arguments [get_upstream_args] returns, which are the ones the
    dispatch tests, select [sel] with a non-empty test path. *)
Definition resolved_test (h : env) (c : cli_args) (sel : string) : Prop :=
  ∃ t0 args config v,
    run h [] (get_upstream_args c) = (t0, Ok (args, config)) ∧
    args !! "run" = Some (VStr sel) ∧
    args !! "test" = Some v ∧
    py_eq_str v "" = false.

(** No model, dataloader, runner or file-system write. *)
Definition harmless (e : event) : Prop :=
  loads_model e = false ∧ builds_dataloader e = false ∧
  writes_fs e = false ∧ is_runner_call e = false.

(** Lines 86-88 once [torch.load] has returned [ckpt]: pure bookkeeping. *)
Definition load_settings (args : gmap string pyval) (resume_ckpt : string)
    (ckpt : pyval) : result (gmap string pyval * pyval) :=
  settings ← py_getitem ckpt "Settings";
  paras ← py_getitem settings "Paras";
  args ← update_args args paras;
  settings ← py_getitem ckpt "Settings";
  config ← py_getitem settings "Config";
  Ok (setattr args "resume" (VStr resume_ckpt), config).

(** ** Sample environments *)

(** An answer for every call: [False], the empty list, [None], handle 1. *)
Definition default_resp (e : event) : resp e :=
  match e return resp e with
  | EIsDir _ | EExists _ | ECudaAvailable => false
  | EGlob _ => []
  | ETorchLoad _ | EYamlLoad _ | EParsePruneHeads _ => VNone
  | EOpen _ | EGetDataloader _ _ _ _ _ _ | EGetOnlineDataloader _ _ _
  | ETransformerRunner _ _ _ _ | ETransformer _ _ | ERnnRunner _ _ => 1%positive
  | ERandint _ _ => 0
  | EPrint _ | EMakedirs _ | ECopyfile _ _ | EImport _ | ESetModel _
  | ETrain _ | ESeed _ _ | ESetCudnn _ _ => tt
  end.

(** A checkpoint as [torch.load] returns it: a dict with a [Settings] entry
    that holds the stored arguments and the stored config. *)
Definition sample_sections : gmap string pyval :=
  list_to_map
    [("dataloader", VDict (list_to_map
        [("data_path", VStr "data/libri"); ("train_set", VList [VStr "train"])]));
     ("runner", VDict (list_to_map [("duo_feature", VBool false)]));
     ("transformer", VDict (list_to_map [("input_dim", VInt 160)]))].

Definition sample_config : pyval := VDict sample_sections.

Definition sample_paras : gmap string pyval :=
  list_to_map
    [("run", VStr "transformer"); ("test", VStr ""); ("seed", VInt 7);
     ("gpu", VBool true); ("resume", VNone)].

Definition sample_ckpt : pyval :=
  VDict (list_to_map
    [("Settings", VDict (list_to_map
        [("Paras", VObj sample_paras); ("Config", sample_config)]))]).

(** A machine on which [exp] is a directory holding two checkpoints, every
    other path is absent, [random.randint] draws 7 and every collaborator
    returns. *)
Definition sample_env : env := fun _ e =>
  match e return result (resp e) with
  | EIsDir p => Ok (String.eqb p "exp")
  | EGlob _ => Ok ["exp/states-9.ckpt"; "exp/states-10.ckpt"]
  | ETorchLoad _ => Ok sample_ckpt
  | EYamlLoad _ => Ok sample_config
  | EParsePruneHeads config => Ok config
  | ERandint a b =>
      if (a <=? 7) && (7 <=? b) then Ok 7
      else if a <=? b then Ok a else Raise ValueError
  | e => Ok (default_resp e)
  end.

(** A directory without checkpoints: every path is a directory and [glob]
    finds nothing. *)
Definition empty_dir_env : env := fun _ e =>
  match e return result (resp e) with
  | EIsDir _ => Ok true
  | e => Ok (default_resp e)
  end.

(** [--run transformer --config config/tera.yaml
    --online_config config/online.yaml] *)
Definition sample_cli_train : cli_args :=
  {| cli_resume := None; cli_run := Some Transformer;
     cli_config := Some "config/tera.yaml"; cli_name := None;
     cli_ckpdir := ""; cli_seed := 1337; cli_test := "";
     cli_cpu := false; cli_multi_gpu := false; cli_test_reconstruct := false;
     cli_online_config := Some "config/online.yaml" |}.

(** [--run apc --config config/apc.yaml --test ckpt/apc.ckpt] *)
Definition sample_cli_train_apc : cli_args :=
  {| cli_resume := None; cli_run := Some Apc;
     cli_config := Some "config/apc.yaml"; cli_name := None;
     cli_ckpdir := ""; cli_seed := 1337; cli_test := "ckpt/apc.ckpt";
     cli_cpu := false; cli_multi_gpu := false; cli_test_reconstruct := false;
     cli_online_config := None |}.

(** [--run transformer --config config/tera.yaml --test ckpt/tera.ckpt] *)
Definition sample_cli_test : cli_args :=
  {| cli_resume := None; cli_run := Some Transformer;
     cli_config := Some "config/tera.yaml"; cli_name := None;
     cli_ckpdir := ""; cli_seed := 1337; cli_test := "ckpt/tera.ckpt";
     cli_cpu := false; cli_multi_gpu := false; cli_test_reconstruct := false;
     cli_online_config := None |}.

(** [--resume exp --run apc --test x] *)
Definition sample_cli_resume : cli_args :=
  {| cli_resume := Some "exp"; cli_run := Some Apc; cli_config := None;
     cli_name := None; cli_ckpdir := ""; cli_seed := 1; cli_test := "x";
     cli_cpu := false; cli_multi_gpu := false; cli_test_reconstruct := false;
     cli_online_config := None |}.

(** The same machine, on which every path exists. *)
Definition present_env : env := fun _ e =>
  match e return result (resp e) with
  | EExists _ => Ok true
  | e => sample_env [] e
  end.

(** The data directory exists, no other path does. *)
Definition train_env : env := fun t e =>
  match e return result (resp e) with
  | EExists (VStr p) => Ok (String.eqb p "data/libri")
  | e => sample_env t e
  end.

(** [numpy.random.seed] refuses a negative seed. *)
Definition strict_seed_env : env := fun t e =>
  match e return result (resp e) with
  | ESeed GNumpy (VInt n) =>
      if n <? 0 then Raise (External "ValueError") else Ok tt
  | e => sample_env t e
  end.

(** [--resume exp --run transformer --config config/tera.yaml
    --test t.ckpt] *)
Definition sample_cli_resume_test : cli_args :=
  {| cli_resume := Some "exp"; cli_run := Some Transformer;
     cli_config := Some "config/tera.yaml"; cli_name := None;
     cli_ckpdir := ""; cli_seed := 1; cli_test := "t.ckpt";
     cli_cpu := false; cli_multi_gpu := false; cli_test_reconstruct := false;
     cli_online_config := None |}.

(** [--run apc --config config/apc.yaml --test ckpt/apc.ckpt --seed -1] *)
Definition sample_cli_bad_seed : cli_args :=
  {| cli_resume := None; cli_run := Some Apc;
     cli_config := Some "config/apc.yaml"; cli_name := None;
     cli_ckpdir := ""; cli_seed := -1; cli_test := "ckpt/apc.ckpt";
     cli_cpu := false; cli_multi_gpu := false; cli_test_reconstruct := false;
     cli_online_config := None |}.

(** ** Vocabulary of the further statements *)

(** The text line 74 hands to [int]: the last hyphen-separated piece of the
    path, up to its first dot. *)
Definition ckpt_stem (pth : string) : result string :=
  tail ← py_last (py_split "-" pth);
  py_head (py_split "." tail).

Definition is_letter (c : ascii) : bool :=
  let n := N_of_ascii c in
  (((65 <=? n) && (n <=? 90)) || ((97 <=? n) && (n <=? 122)))%N.

(** A letter or a slash somewhere in the string: no decimal literal. *)
Fixpoint has_letter_or_slash (s : string) : bool :=
  match s with
  | EmptyString => false
  | String c s' => is_letter c || Ascii.eqb c "/" || has_letter_or_slash s'
  end.

(** A resume directory that holds a checkpoint without a step beside a
    numbered one. *)
Definition unnumbered_env : env := fun _ e =>
  match e return result (resp e) with
  | EIsDir _ => Ok true
  | EGlob _ => Ok ["exp/states-10.ckpt"; "exp/best.ckpt"]
  | e => Ok (default_resp e)
  end.

(** The sample machine with the directory listed in the other order. *)
Definition reversed_env : env := fun t e =>
  match e return result (resp e) with
  | EGlob _ => Ok ["exp/states-10.ckpt"; "exp/states-9.ckpt"]
  | e => sample_env t e
  end.

Definition is_copy (e : event) : bool :=
  match e with
  | ECopyfile _ _ => true
  | _ => false
  end.

(** [--config a/shared.yaml --online_config b/shared.yaml --ckpdir out] *)
Definition sample_args_collide : gmap string pyval :=
  <["ckpdir" := VStr "out"]>
    (<["config" := VStr "a/shared.yaml"]>
       (<["online_config" := VStr "b/shared.yaml"]>
          (setattr (vars_of_cli sample_cli_train) "gpu" (VBool true)))).

(** A config in duo mode whose dataloader section names no target path. *)
Definition duo_sections : gmap string pyval :=
  list_to_map
    [("dataloader", VDict (list_to_map
        [("data_path", VStr "data/libri"); ("train_set", VList [VStr "train"])]));
     ("runner", VDict (list_to_map [("duo_feature", VBool true)]));
     ("transformer", VDict (list_to_map [("input_dim", VInt 160)]))].

(** The calls of the training path of the autoregressive model. *)
Definition is_apc_call (seed : pyval) (e : event) : Prop :=
  e = EImport "rnn.runner" ∨ e = ERnnRunner seed true ∨ ∃ r, e = ETrain r.

(** Stored arguments of a checkpoint that were saved without [gpu]. *)
Definition sample_paras_no_gpu : gmap string pyval :=
  list_to_map [("run", VStr "transformer"); ("test", VStr ""); ("seed", VInt 7)].

(** [--config config/tera.yaml], no [--run]. *)
Definition sample_cli_no_run : cli_args :=
  {| cli_resume := None; cli_run := None;
     cli_config := Some "config/tera.yaml"; cli_name := None;
     cli_ckpdir := ""; cli_seed := 1337; cli_test := "";
     cli_cpu := false; cli_multi_gpu := false; cli_test_reconstruct := false;
     cli_online_config := None |}.

(** [--run apc --config config/apc.yaml] *)
Definition sample_cli_apc : cli_args :=
  {| cli_resume := None; cli_run := Some Apc;
     cli_config := Some "config/apc.yaml"; cli_name := None;
     cli_ckpdir := ""; cli_seed := 1337; cli_test := "";
     cli_cpu := false; cli_multi_gpu := false; cli_test_reconstruct := false;
     cli_online_config := None |}.

(** A checkpoint whose stored arguments lack [gpu]. *)
Definition sample_ckpt_no_gpu : pyval :=
  VDict (list_to_map
    [("Settings", VDict (list_to_map
        [("Paras", VObj sample_paras_no_gpu); ("Config", sample_config)]))]).

Definition no_gpu_env : env := fun t e =>
  match e return result (resp e) with
  | ETorchLoad _ => Ok sample_ckpt_no_gpu
  | e => sample_env t e
  end.

(** The same command line with [--cpu] given or not. *)
Definition with_cpu (c : cli_args) (b : bool) : cli_args :=
  {| cli_resume := cli_resume c; cli_run := cli_run c;
     cli_config := cli_config c; cli_name := cli_name c;
     cli_ckpdir := cli_ckpdir c; cli_seed := cli_seed c;
     cli_test := cli_test c; cli_cpu := b;
     cli_multi_gpu := cli_multi_gpu c;
     cli_test_reconstruct := cli_test_reconstruct c;
     cli_online_config := cli_online_config c |}.

(** The log of lines 179-184 when every call returns. *)
Definition seeding (seed : pyval) (cuda : bool) : list entry :=
  [Entry (ESeed GRandom seed) (Ok tt);
   Entry (ESeed GNumpy seed) (Ok tt);
   Entry (ESeed GTorch seed) (Ok tt);
   Entry ECudaAvailable (Ok cuda)]
  ++ (if cuda then [Entry (ESeed GCudaAll seed) (Ok tt)] else [])
  ++ [Entry (ESetCudnn "deterministic" true) (Ok tt);
      Entry (ESetCudnn "benchmark" true) (Ok tt)].

(** A config file without a [transformer] section. *)
Definition sample_config_bare : pyval :=
  VDict (list_to_map
    [("dataloader", VDict (list_to_map
        [("data_path", VStr "data/libri"); ("train_set", VList [VStr "train"])]));
     ("runner", VDict (list_to_map [("duo_feature", VBool false)]))]).

Definition bare_config_env : env := fun t e =>
  match e return result (resp e) with
  | EYamlLoad _ => Ok sample_config_bare
  | e => sample_env t e
  end.

(** * Properties *)

(** ** Running programs *)

Lemma run_bind {A B} (h : env) (p : prog A) (k : A -> prog B) t :
  run h t (p ≫= k) =
  match run h t p with
  | (t', Ok a) => run h t' (k a)
  | (t', Raise x) => (t', Raise x)
  end.
Proof.
  revert t. induction p as [a|x|e c IH]; intros t; simpl; try reflexivity.
  destruct (h t e) as [r|x]; [apply IH | reflexivity].
Qed.

Lemma run_lift {A} (h : env) (r : result A) t : run h t (lift r) = (t, r).
Proof. destruct r; reflexivity. Qed.

Lemma run_call (h : env) (e : event) t :
  run h t (call e) = (t ++ [Entry e (h t e)], h t e).
Proof. unfold call. simpl. destruct (h t e); reflexivity. Qed.

(** A run only ever adds to the log. *)
Lemma run_extends {A} (h : env) (p : prog A) t :
  ∃ t', (run h t p).1 = t ++ t'.
Proof.
  revert t. induction p as [a|x|e c IH]; intros t; simpl.
  - exists []. by rewrite app_nil_r.
  - exists []. by rewrite app_nil_r.
  - destruct (h t e) as [r|x].
    + destruct (IH r (t ++ [Entry e (Ok r)])) as [t' Ht'].
      exists (Entry e (Ok r) :: t'). rewrite Ht'. by rewrite <- app_assoc.
    + by eexists.
Qed.

(** ** Splitting and parsing *)

Lemma py_split_nonnil sep s : py_split sep s ≠ [].
Proof.
  destruct s as [|c s]; simpl; [done|].
  destruct (Ascii.eqb c sep); [done|]. by destruct (py_split sep s).
Qed.

Lemma py_split_no_sep sep s : occurs sep s = false → py_split sep s = [s].
Proof.
  induction s as [|c s IH]; simpl; [done|].
  intros [Hc Hs]%orb_false_iff. rewrite Hc, (IH Hs). done.
Qed.

(** Splitting distributes over a separator: the pieces on its left, then
    the pieces on its right. *)
Lemma py_split_app sep (a b : string) :
  py_split sep (a ++ String sep b)%string = py_split sep a ++ py_split sep b.
Proof.
  induction a as [|c a IH]; simpl.
  - by rewrite Ascii.eqb_refl.
  - destruct (Ascii.eqb c sep); rewrite IH; [done|].
    pose proof (py_split_nonnil sep a). by destruct (py_split sep a).
Qed.

Lemma py_last_split_tail sep (a b : string) :
  occurs sep b = false →
  py_last (py_split sep (a ++ String sep b)%string) = Ok b.
Proof.
  intros Hb. unfold py_last.
  rewrite py_split_app, (py_split_no_sep _ _ Hb), last_snoc. done.
Qed.

Lemma py_head_split_front sep (a b : string) :
  occurs sep a = false →
  py_head (py_split sep (a ++ String sep b)%string) = Ok a.
Proof.
  intros Ha. by rewrite py_split_app, (py_split_no_sep _ _ Ha).
Qed.

Lemma is_digit_plain c :
  is_digit c = true →
  is_space c = false ∧ Ascii.eqb c "-" = false ∧ Ascii.eqb c "." = false ∧
  c ≠ "-"%char ∧ c ≠ "+"%char.
Proof.
  destruct c as [[] [] [] [] [] [] [] []]; vm_compute; intros; try discriminate;
    repeat split; discriminate.
Qed.

Lemma all_digits_occurs s :
  all_digits s = true → occurs "-" s = false ∧ occurs "." s = false.
Proof.
  induction s as [|c s IH]; simpl; [done|].
  intros [Hc Hs]%andb_true_iff. destruct (IH Hs) as [-> ->].
  destruct (is_digit_plain c Hc) as (_ & -> & -> & _). done.
Qed.

Lemma occurs_app c (a b : string) :
  occurs c (a ++ b)%string = occurs c a || occurs c b.
Proof.
  induction a as [|x a IH]; simpl; [done|]. by rewrite IH, orb_assoc.
Qed.

Lemma lstrip_digits s : all_digits s = true → lstrip s = s.
Proof.
  destruct s as [|c s]; simpl; [done|].
  intros [Hc _]%andb_true_iff. by destruct (is_digit_plain c Hc) as (-> & _).
Qed.

Lemma all_digits_rev_app a b :
  all_digits (String.rev_app a b) = all_digits a && all_digits b.
Proof.
  revert b. induction a as [|c a IH]; intros b; simpl; [done|].
  rewrite IH. simpl. destruct (is_digit c), (all_digits a); done.
Qed.

Lemma rev_app_rev_app a b c :
  String.rev_app (String.rev_app a b) c = String.rev_app b (a ++ c)%string.
Proof.
  revert b c. induction a as [|x a IH]; intros b c; simpl; [done|].
  by rewrite IH.
Qed.

Lemma strip_digits s : all_digits s = true → strip s = s.
Proof.
  intros Hs. unfold strip. rewrite (lstrip_digits s Hs).
  rewrite lstrip_digits.
  - unfold String.rev. rewrite rev_app_rev_app. simpl.
    clear Hs. induction s as [|c s IH]; [done|].
    change (String c (s ++ "")%string = String c s). by rewrite IH.
  - unfold String.rev. rewrite all_digits_rev_app, Hs. done.
Qed.

Lemma int_digits_value acc seen s :
  all_digits s = true → (s ≠ EmptyString ∨ seen = true) →
  int_digits acc seen s = Some (digits_value acc s).
Proof.
  revert acc seen. induction s as [|c s IH]; intros acc seen; simpl.
  - intros _ [?| ->]; done.
  - intros [Hc Hs]%andb_true_iff _. rewrite Hc. apply IH; auto.
Qed.

(** [int] of a non-empty string of digits is the number it denotes. *)
Lemma py_int_digits s :
  s ≠ EmptyString → all_digits s = true → py_int s = Ok (digits_value 0 s).
Proof.
  intros Hne Hs. unfold py_int. rewrite (strip_digits s Hs).
  assert (int_digits 0 false s = Some (digits_value 0 s)) as Hi
    by (apply int_digits_value; auto).
  destruct s as [|c r]; [done|].
  simpl in Hs. apply andb_true_iff in Hs as [Hc _].
  destruct (is_digit_plain c Hc) as (_ & _ & _ & Hm & Hp).
  destruct c as [[] [] [] [] [] [] [] []]; try done; by rewrite Hi.
Qed.

(** The key of a step-named checkpoint is its step. *)
Lemma ckpt_step_named pth n : step_named pth n → ckpt_step pth = Ok n.
Proof.
  intros (pre & ds & ext & -> & Hne & Hds & Hext & ->).
  destruct (all_digits_occurs ds Hds) as [Hh Hd].
  unfold ckpt_step.
  change (pre ++ "-" ++ ds ++ "." ++ ext)%string
    with (pre ++ String "-" (ds ++ String "." ext))%string.
  rewrite py_last_split_tail.
  - simpl. change (py_head (py_split "." (ds ++ String "." ext)) ≫= py_int
                   = Ok (digits_value 0 ds)).
    rewrite py_head_split_front by done. by apply py_int_digits.
  - rewrite occurs_app, Hh. simpl. done.
Qed.

(** ** Sorting by key *)

Lemma insert_by_key_perm {A} (x : Z * A) l : insert_by_key x l ≡ₚ x :: l.
Proof.
  induction l as [|y l IH]; simpl; [done|].
  destruct (x.1 <=? y.1); [done|]. rewrite IH. apply Permutation_swap.
Qed.

Lemma sort_by_key_perm {A} (l : list (Z * A)) : sort_by_key l ≡ₚ l.
Proof.
  induction l as [|x l IH]; simpl; [done|].
  by rewrite insert_by_key_perm, IH.
Qed.

Lemma last_insert_le {A} (x m : Z * A) l :
  last l = Some m → x.1 ≤ m.1 → last (insert_by_key x l) = Some m.
Proof.
  intros Hl Hx. induction l as [|y l IH]; simpl; [done|].
  destruct (x.1 <=? y.1) eqn:Hxy.
  - by rewrite last_cons_cons.
  - destruct l as [|z l].
    + simpl in *. injection Hl as ->. lia.
    + rewrite last_cons_cons in Hl. specialize (IH Hl).
      destruct (insert_by_key x (z :: l)) eqn:Hi; [done|].
      by rewrite last_cons_cons.
Qed.

Lemma last_insert_gt {A} (x : Z * A) l :
  (∀ y, y ∈ l → y.1 < x.1) → last (insert_by_key x l) = Some x.
Proof.
  induction l as [|y l IH]; intros Hl; simpl; [done|].
  assert (y.1 < x.1) by (apply Hl; left).
  destruct (x.1 <=? y.1) eqn:Hxy; [lia|].
  assert (last (insert_by_key x l) = Some x) as Hi
    by (apply IH; intros; apply Hl; by right).
  destruct (insert_by_key x l); [done|]. by rewrite last_cons_cons.
Qed.

(** The last element of the sorted list is the last one, in the original
    order, among those whose key is largest. *)
Lemma sort_by_key_last {A} (l : list (Z * A)) :
  l ≠ [] →
  ∃ x l1 l2, last (sort_by_key l) = Some x ∧ l = l1 ++ x :: l2 ∧
    (∀ y, y ∈ l1 → y.1 ≤ x.1) ∧ (∀ y, y ∈ l2 → y.1 < x.1).
Proof.
  induction l as [|a l IH]; [done|]. intros _.
  destruct l as [|b l].
  { exists a, [], []. repeat split; intros y Hy; by apply elem_of_nil in Hy. }
  destruct IH as (m & l1 & l2 & Hlast & Hl & H1 & H2); [done|].
  destruct (Z_le_gt_dec a.1 m.1) as [Hle|Hgt].
  - exists m, (a :: l1), l2. repeat split.
    + simpl. apply last_insert_le; [exact Hlast | done].
    + by rewrite Hl.
    + intros y [->|Hy]%elem_of_cons; auto.
    + done.
  - exists a, [], (b :: l). repeat split.
    + change (last (insert_by_key a (sort_by_key (b :: l))) = Some a).
      apply last_insert_gt. intros y Hy.
      rewrite sort_by_key_perm, Hl in Hy.
      apply elem_of_app in Hy as [Hy|[->|Hy]%elem_of_cons].
      * specialize (H1 y Hy). lia.
      * lia.
      * specialize (H2 y Hy). lia.
    + intros y Hy; by apply elem_of_nil in Hy.
    + intros y Hy. rewrite Hl in Hy.
      apply elem_of_app in Hy as [Hy|[->|Hy]%elem_of_cons].
      * specialize (H1 y Hy). lia.
      * lia.
      * specialize (H2 y Hy). lia.
Qed.

Lemma keyed_ok {A} (key : A → result Z) (l : list A) :
  (∀ p, p ∈ l → ∃ n, key p = Ok n) →
  ∃ kl, keyed key l = Ok kl ∧ map snd kl = l ∧
        ∀ y, y ∈ kl → key y.2 = Ok y.1.
Proof.
  induction l as [|p l IH]; intros Hl.
  - exists []. repeat split. intros y Hy. by apply elem_of_nil in Hy.
  - destruct (Hl p) as [n Hn]; [left|].
    destruct IH as (kl & Hk & Hm & Hy); [intros; apply Hl; by right|].
    exists ((n, p) :: kl). repeat split.
    + simpl. rewrite Hn. simpl. rewrite Hk. done.
    + simpl. by rewrite Hm.
    + intros y [->|?]%elem_of_cons; auto.
Qed.

Lemma last_map_snd {A} (l : list (Z * A)) : last (map snd l) = snd <$> last l.
Proof.
  induction l as [|x l IH]; [done|].
  destruct l as [|y l]; [done|].
  change (last (x.2 :: y.2 :: map snd l) = snd <$> last (x :: y :: l)).
  rewrite !last_cons_cons. exact IH.
Qed.

(** What [sorted(ckpts, key=...)[-1]] picks, when every file has a step. *)
Lemma sorted_last_step (ckpts : list string) :
  ckpts ≠ [] →
  (∀ p, p ∈ ckpts → ∃ n, step_named p n) →
  ∃ sorted sel m before after,
    py_sorted ckpt_step ckpts = Ok sorted ∧ py_last sorted = Ok sel ∧
    ckpts = before ++ sel :: after ∧ step_named sel m ∧
    (∀ p n, p ∈ before → step_named p n → n ≤ m) ∧
    (∀ p n, p ∈ after → step_named p n → n < m).
Proof.
  intros Hne Hall.
  destruct (keyed_ok ckpt_step ckpts) as (kl & Hk & Hm & Hkey).
  { intros p Hp. destruct (Hall p Hp) as [n Hn]. exists n.
    by apply ckpt_step_named. }
  destruct (sort_by_key_last kl) as (x & l1 & l2 & Hlast & Hl & H1 & H2).
  { intros ->. by subst ckpts. }
  assert (ckpts = map snd l1 ++ x.2 :: map snd l2) as Hsplit.
  { by rewrite <- Hm, Hl, map_app. }
  exists (map snd (sort_by_key kl)), x.2, x.1, (map snd l1), (map snd l2).
  repeat split.
  - unfold py_sorted. rewrite Hk. done.
  - unfold py_last. rewrite last_map_snd, Hlast. done.
  - exact Hsplit.
  - destruct (Hall x.2) as [n Hn].
    { rewrite Hsplit. apply elem_of_app. right. left. }
    assert (ckpt_step x.2 = Ok x.1) as Hx.
    { apply Hkey. rewrite Hl. apply elem_of_app. right. left. }
    apply ckpt_step_named in Hn as Hn'. rewrite Hx in Hn'.
    injection Hn' as ->. exact Hn.
  - intros p n Hp Hn. apply list_elem_of_fmap in Hp as (y & -> & Hy).
    assert (ckpt_step y.2 = Ok y.1) as Hk'.
    { apply Hkey. rewrite Hl. apply elem_of_app. by left. }
    apply ckpt_step_named in Hn. rewrite Hk' in Hn. injection Hn as <-.
    by apply H1.
  - intros p n Hp Hn. apply list_elem_of_fmap in Hp as (y & -> & Hy).
    assert (ckpt_step y.2 = Ok y.1) as Hk'.
    { apply Hkey. rewrite Hl. apply elem_of_app. right. by right. }
    apply ckpt_step_named in Hn. rewrite Hk' in Hn. injection Hn as <-.
    by apply H2.
Qed.

(** ** Resuming from a checkpoint *)

Lemma run_resolve_resume_dir (h : env) t (resume : string) (ckpts : list string) :
  h t (EIsDir resume) = Ok true →
  h (t ++ [Entry (EIsDir resume) (Ok true)]) (EGlob (resume ++ "/*.ckpt")%string)
    = Ok ckpts →
  run h t (resolve_resume resume) =
  (t ++ [Entry (EIsDir resume) (Ok true)]
     ++ [Entry (EGlob (resume ++ "/*.ckpt")%string) (Ok ckpts)],
   if 0 <? Z.of_nat (length ckpts)
   then py_sorted ckpt_step ckpts ≫= py_last
   else Raise AssertionError).
Proof.
  intros Hd Hg. unfold resolve_resume. simpl. rewrite Hd. simpl. rewrite Hg.
  rewrite <- app_assoc. simpl.
  destruct (0 <? Z.of_nat (length ckpts)); simpl; [|done].
  destruct (py_sorted ckpt_step ckpts) as [sorted|x]; simpl; [|done].
  destruct (py_last sorted); done.
Qed.

Lemma run_resolve_resume_file (h : env) t (resume : string) :
  h t (EIsDir resume) = Ok false →
  run h t (resolve_resume resume) =
  (t ++ [Entry (EIsDir resume) (Ok false)], Ok resume).
Proof. intros Hd. unfold resolve_resume. simpl. by rewrite Hd. Qed.

Lemma run_get_upstream_args_resume (h : env) (c : cli_args) resume t sel :
  cli_resume c = Some resume →
  run h [] (resolve_resume resume) = (t, Ok sel) →
  run h [] (get_upstream_args c) =
  (t ++ [Entry (ETorchLoad sel) (h t (ETorchLoad sel))],
   h t (ETorchLoad sel) ≫= load_settings (vars_of_cli c) sel).
Proof.
  intros Hc Hr. unfold get_upstream_args. rewrite Hc, run_bind, Hr.
  simpl. destruct (h t (ETorchLoad sel)) as [ckpt|x]; [|done]. simpl.
  unfold load_settings.
  destruct (py_getitem ckpt "Settings") as [settings|x]; simpl; [|done].
  destruct (py_getitem settings "Paras") as [paras|x]; simpl; [|done].
  destruct (update_args (vars_of_cli c) paras) as [args|x]; simpl; [|done].
  destruct (py_getitem settings "Config") as [config|x]; simpl; done.
Qed.

Lemma load_settings_inv args0 sel ckpt args config :
  load_settings args0 sel ckpt = Ok (args, config) →
  ∃ settings paras,
    py_getitem ckpt "Settings" = Ok settings ∧
    py_getitem settings "Paras" = Ok (VObj paras) ∧
    py_getitem settings "Config" = Ok config ∧
    args = <["resume" := VStr sel]> (paras ∪ args0).
Proof.
  unfold load_settings.
  destruct (py_getitem ckpt "Settings") as [settings|x] eqn:Hs; simpl; [|done].
  destruct (py_getitem settings "Paras") as [paras|x] eqn:Hp; simpl; [|done].
  destruct paras; simpl; try done.
  destruct (py_getitem settings "Config") as [cfg|x] eqn:Hc; simpl; [|done].
  intros [= <- <-]. by eexists _, _.
Qed.

(** C1: in a resume directory whose checkpoint files all end in a hyphen, a
    decimal step and an extension, [get_upstream_args] loads a file whose
    step is the largest (the last such file in [glob] order when several
    share it), and records it as [args.resume]; and this is not the file the
    plain string order would put last: with [states-9.ckpt] and
    [states-10.ckpt] it loads the latter, the string order ends in the
    former. *)
Theorem resume_dir_selects_max_step :
  (∀ (h : env) (c : cli_args) (resume : string) (ckpts : list string),
      cli_resume c = Some resume →
      h [] (EIsDir resume) = Ok true →
      h [Entry (EIsDir resume) (Ok true)] (EGlob (resume ++ "/*.ckpt")%string)
        = Ok ckpts →
      ckpts ≠ [] →
      (∀ p, p ∈ ckpts → ∃ n, step_named p n) →
      ∃ sel m before after r,
        ckpts = before ++ sel :: after ∧ step_named sel m ∧
        (∀ p n, p ∈ before → step_named p n → n ≤ m) ∧
        (∀ p n, p ∈ after → step_named p n → n < m) ∧
        (run h [] (get_upstream_args c)).1 =
          [Entry (EIsDir resume) (Ok true);
           Entry (EGlob (resume ++ "/*.ckpt")%string) (Ok ckpts);
           Entry (ETorchLoad sel) r] ∧
        (∀ args config,
            (run h [] (get_upstream_args c)).2 = Ok (args, config) →
            args !! "resume" = Some (VStr sel))) ∧
  (∃ (h : env) (c : cli_args) (ckpts : list string) (sel other : string) r,
      (run h [] (get_upstream_args c)).1 =
        [Entry (EIsDir "exp") (Ok true);
         Entry (EGlob "exp/*.ckpt") (Ok ckpts);
         Entry (ETorchLoad sel) r] ∧
      lex_last ckpts = Some other ∧ other ≠ sel).
Proof.
  split.
  - intros h c resume ckpts Hc Hd Hg Hne Hall.
    destruct (sorted_last_step ckpts Hne Hall)
      as (sorted & sel & m & before & after & Hs & Hl & Hsplit & Hm & Hb & Ha).
    assert (run h [] (resolve_resume resume) =
            ([Entry (EIsDir resume) (Ok true);
              Entry (EGlob (resume ++ "/*.ckpt")%string) (Ok ckpts)], Ok sel))
      as Hr.
    { rewrite (run_resolve_resume_dir h [] resume ckpts Hd Hg).
      destruct ckpts; [done|]. simpl. rewrite Hs. simpl. by rewrite Hl. }
    rewrite (run_get_upstream_args_resume h c resume _ sel Hc Hr).
    eexists sel, m, before, after, _. repeat split; try done.
    simpl. intros args config Hrun.
    destruct (h _ (ETorchLoad sel)) as [ckpt|x]; [|done]. simpl in Hrun.
    apply load_settings_inv in Hrun as (? & ? & _ & _ & _ & ->).
    apply lookup_insert_eq.
  - exists sample_env, sample_cli_resume,
      ["exp/states-9.ckpt"; "exp/states-10.ckpt"],
      "exp/states-10.ckpt", "exp/states-9.ckpt", (Ok sample_ckpt).
    split; [vm_compute; reflexivity | split; [reflexivity | discriminate]].
Qed.

Lemma resume_dir_selects_max_step_witness :
  ∃ sel m before after r,
    ["exp/states-9.ckpt"; "exp/states-10.ckpt"] = before ++ sel :: after ∧
    step_named sel m ∧
    (∀ p n, p ∈ before → step_named p n → n ≤ m) ∧
    (∀ p n, p ∈ after → step_named p n → n < m) ∧
    (run sample_env [] (get_upstream_args sample_cli_resume)).1 =
      [Entry (EIsDir "exp") (Ok true);
       Entry (EGlob ("exp" ++ "/*.ckpt")%string)
         (Ok ["exp/states-9.ckpt"; "exp/states-10.ckpt"]);
       Entry (ETorchLoad sel) r] ∧
    (∀ args config,
        (run sample_env [] (get_upstream_args sample_cli_resume)).2
          = Ok (args, config) →
        args !! "resume" = Some (VStr sel)).
Proof.
  apply (proj1 resume_dir_selects_max_step sample_env sample_cli_resume "exp"
           ["exp/states-9.ckpt"; "exp/states-10.ckpt"]).
  - reflexivity.
  - reflexivity.
  - reflexivity.
  - discriminate.
  - intros p Hp. apply elem_of_cons in Hp as [->|Hp].
    + exists 9, "exp/states", "9", "ckpt". repeat split. discriminate.
    + apply elem_of_cons in Hp as [->|Hp].
      * exists 10, "exp/states", "10", "ckpt". repeat split. discriminate.
      * by apply elem_of_nil in Hp.
Defined.

(** C2: when a resume path is given and [get_upstream_args] returns, the
    returned arguments are the parsed ones overwritten by the checkpoint's
    [Settings.Paras] (the checkpoint's value on every field it stores, the
    parsed value on the others), with [resume] set to the resolved
    checkpoint file; the returned config is the checkpoint's
    [Settings.Config]. *)
Theorem resume_overrides_arguments (h : env) (c : cli_args) (resume : string)
    (t : list entry) (args : gmap string pyval) (config : pyval) :
  cli_resume c = Some resume →
  run h [] (get_upstream_args c) = (t, Ok (args, config)) →
  ∃ resume_ckpt ckpt settings paras,
    (run h [] (resolve_resume resume)).2 = Ok resume_ckpt ∧
    last t = Some (Entry (ETorchLoad resume_ckpt) (Ok ckpt)) ∧
    py_getitem ckpt "Settings" = Ok settings ∧
    py_getitem settings "Paras" = Ok (VObj paras) ∧
    py_getitem settings "Config" = Ok config ∧
    args = <["resume" := VStr resume_ckpt]> (paras ∪ vars_of_cli c) ∧
    args !! "resume" = Some (VStr resume_ckpt) ∧
    (∀ k v, k ≠ "resume" → paras !! k = Some v → args !! k = Some v) ∧
    (∀ k, k ≠ "resume" → paras !! k = None → args !! k = vars_of_cli c !! k).
Proof.
  intros Hc Hrun.
  destruct (run h [] (resolve_resume resume)) as [t1 [sel|x]] eqn:Hr.
  - rewrite (run_get_upstream_args_resume h c resume t1 sel Hc Hr) in Hrun.
    injection Hrun as <- Hres.
    destruct (h t1 (ETorchLoad sel)) as [ckpt|x]; [|done]. simpl in Hres.
    apply load_settings_inv in Hres as (settings & paras & Hs & Hp & Hcfg & ->).
    exists sel, ckpt, settings, paras. repeat split; try done.
    + apply last_snoc.
    + apply lookup_insert_eq.
    + intros k v Hk Hv. rewrite lookup_insert_ne by done.
      by apply lookup_union_Some_l.
    + intros k Hk Hv. rewrite lookup_insert_ne by done.
      by apply lookup_union_r.
  - unfold get_upstream_args in Hrun. rewrite Hc, run_bind, Hr in Hrun. done.
Qed.

Lemma resume_overrides_arguments_witness :
  ∃ resume_ckpt ckpt settings paras,
    (run sample_env [] (resolve_resume "exp")).2 = Ok resume_ckpt ∧
    last (run sample_env [] (get_upstream_args sample_cli_resume)).1
      = Some (Entry (ETorchLoad resume_ckpt) (Ok ckpt)) ∧
    py_getitem ckpt "Settings" = Ok settings ∧
    py_getitem settings "Paras" = Ok (VObj paras) ∧
    py_getitem settings "Config" = Ok sample_config ∧
    <["resume" := VStr "exp/states-10.ckpt"]>
      (sample_paras ∪ vars_of_cli sample_cli_resume)
      = <["resume" := VStr resume_ckpt]> (paras ∪ vars_of_cli sample_cli_resume) ∧
    (<["resume" := VStr "exp/states-10.ckpt"]>
      (sample_paras ∪ vars_of_cli sample_cli_resume)) !! "resume"
      = Some (VStr resume_ckpt) ∧
    (∀ k v, k ≠ "resume" → paras !! k = Some v →
       (<["resume" := VStr "exp/states-10.ckpt"]>
          (sample_paras ∪ vars_of_cli sample_cli_resume)) !! k = Some v) ∧
    (∀ k, k ≠ "resume" → paras !! k = None →
       (<["resume" := VStr "exp/states-10.ckpt"]>
          (sample_paras ∪ vars_of_cli sample_cli_resume)) !! k
       = vars_of_cli sample_cli_resume !! k).
Proof.
  apply (resume_overrides_arguments sample_env sample_cli_resume "exp").
  - reflexivity.
  - vm_compute. reflexivity.
Defined.

(** C5: a resume directory in which [glob] finds no [*.ckpt] file makes
    [get_upstream_args] raise, at the assertion and before any checkpoint is
    loaded. *)
Theorem resume_dir_without_ckpt_fails (h : env) (c : cli_args)
    (resume : string) :
  cli_resume c = Some resume →
  h [] (EIsDir resume) = Ok true →
  h [Entry (EIsDir resume) (Ok true)] (EGlob (resume ++ "/*.ckpt")%string)
    = Ok [] →
  run h [] (get_upstream_args c) =
  ([Entry (EIsDir resume) (Ok true);
    Entry (EGlob (resume ++ "/*.ckpt")%string) (Ok [])],
   Raise AssertionError).
Proof.
  intros Hc Hd Hg. unfold get_upstream_args.
  rewrite Hc, run_bind, (run_resolve_resume_dir h [] resume [] Hd Hg). done.
Qed.

(** C10: a resume path that is not a directory is itself the file handed to
    [torch.load]: nothing is globbed, parsed, sorted or asserted, whatever
    the path looks like, and it is the path recorded as [args.resume]. *)
Theorem resume_file_used_directly (h : env) (c : cli_args) (resume : string) :
  cli_resume c = Some resume →
  h [] (EIsDir resume) = Ok false →
  run h [] (get_upstream_args c) =
  ([Entry (EIsDir resume) (Ok false);
    Entry (ETorchLoad resume)
      (h [Entry (EIsDir resume) (Ok false)] (ETorchLoad resume))],
   h [Entry (EIsDir resume) (Ok false)] (ETorchLoad resume)
     ≫= load_settings (vars_of_cli c) resume) ∧
  (∀ args config,
      (run h [] (get_upstream_args c)).2 = Ok (args, config) →
      args !! "resume" = Some (VStr resume)).
Proof.
  intros Hc Hd.
  pose proof (run_get_upstream_args_resume h c resume _ resume Hc
                (run_resolve_resume_file h [] resume Hd)) as Hrun.
  split; [exact Hrun|]. rewrite Hrun. simpl. intros args config Hres.
  destruct (h _ (ETorchLoad resume)) as [ckpt|x]; [|done]. simpl in Hres.
  apply load_settings_inv in Hres as (? & ? & _ & _ & _ & ->).
  apply lookup_insert_eq.
Qed.

Lemma resume_dir_without_ckpt_fails_witness :
  run empty_dir_env [] (get_upstream_args sample_cli_resume) =
  ([Entry (EIsDir "exp") (Ok true);
    Entry (EGlob ("exp" ++ "/*.ckpt")%string) (Ok [])],
   Raise AssertionError).
Proof.
  apply (resume_dir_without_ckpt_fails empty_dir_env sample_cli_resume "exp");
    reflexivity.
Defined.

Lemma resume_file_used_directly_witness :
  run sample_env [] (get_upstream_args
    {| cli_resume := Some "exp/states-9.ckpt"; cli_run := None;
       cli_config := None; cli_name := None; cli_ckpdir := ""; cli_seed := 1337;
       cli_test := ""; cli_cpu := false; cli_multi_gpu := false;
       cli_test_reconstruct := false; cli_online_config := None |}) =
  ([Entry (EIsDir "exp/states-9.ckpt") (Ok false);
    Entry (ETorchLoad "exp/states-9.ckpt")
      (sample_env [Entry (EIsDir "exp/states-9.ckpt") (Ok false)]
         (ETorchLoad "exp/states-9.ckpt"))],
   sample_env [Entry (EIsDir "exp/states-9.ckpt") (Ok false)]
     (ETorchLoad "exp/states-9.ckpt")
     ≫= load_settings (vars_of_cli
          {| cli_resume := Some "exp/states-9.ckpt"; cli_run := None;
             cli_config := None; cli_name := None; cli_ckpdir := "";
             cli_seed := 1337; cli_test := ""; cli_cpu := false;
             cli_multi_gpu := false; cli_test_reconstruct := false;
             cli_online_config := None |}) "exp/states-9.ckpt").
Proof.
  apply (resume_file_used_directly sample_env _ "exp/states-9.ckpt");
    reflexivity.
Defined.

(** ** Which calls a program makes *)

Lemma all_calls_bind {A B} (P : event → Prop) (p : prog A) (k : A → prog B) :
  all_calls P p → (∀ a, all_calls P (k a)) → all_calls P (p ≫= k).
Proof.
  intros Hp Hk. induction p as [a|x|e c IH]; simpl in *; [apply Hk|done|].
  destruct Hp as [He Hc]. split; [done|]. intros r. apply IH, Hc.
Qed.

Lemma all_calls_lift_bind {A B} (P : event → Prop) (r : result A)
    (k : A → prog B) :
  (∀ a, r = Ok a → all_calls P (k a)) → all_calls P (lift r ≫= k).
Proof. destruct r as [a|x]; simpl; [|done]. intros H. by apply H. Qed.

Lemma all_calls_call_bind {B} (P : event → Prop) (e : event)
    (k : resp e → prog B) :
  P e → (∀ r, all_calls P (k r)) → all_calls P (call e ≫= k).
Proof. intros He Hk. simpl. by split. Qed.

Lemma all_calls_call (P : event → Prop) (e : event) :
  P e → all_calls P (call e).
Proof. intros He. simpl. by split. Qed.

Lemma all_calls_lift {A} (P : event → Prop) (r : result A) :
  all_calls P (lift r).
Proof. by destruct r. Qed.

Lemma all_calls_impl {A} (P Q : event → Prop) (p : prog A) :
  (∀ e, P e → Q e) → all_calls P p → all_calls Q p.
Proof.
  intros HPQ. induction p as [a|x|e c IH]; simpl; [done|done|].
  intros [He Hc]. split; [by apply HPQ|]. intros r. apply IH, Hc.
Qed.

(** What holds of every call of the program holds of every line a run
    adds to the log. *)
Lemma all_calls_run {A} (P : event → Prop) (p : prog A) (h : env) t :
  all_calls P p →
  ∃ t', (run h t p).1 = t ++ t' ∧ Forall (λ en, P (entry_event en)) t'.
Proof.
  revert t. induction p as [a|x|e c IH]; intros t Hp; simpl in *.
  - exists []. by rewrite app_nil_r.
  - exists []. by rewrite app_nil_r.
  - destruct Hp as [He Hc]. destruct (h t e) as [r|x].
    + destruct (IH r (t ++ [Entry e (Ok r)]) (Hc r)) as (t' & Ht' & HP).
      exists (Entry e (Ok r) :: t'). rewrite Ht', <- app_assoc.
      split; [done|]. by constructor.
    + exists [Entry e (Raise x)]. split; [done|]. by repeat constructor.
Qed.

Ltac calls :=
  repeat match goal with
  | |- all_calls _ (lift _ ≫= _) => apply all_calls_lift_bind; intros ? ?
  | |- all_calls _ (call _ ≫= _) => apply all_calls_call_bind; [|intros ?]
  | |- all_calls _ (call _) => apply all_calls_call
  | |- all_calls _ (lift _) => apply all_calls_lift
  | |- all_calls _ (Ret _) => exact I
  | |- all_calls _ (Throw _) => exact I
  | |- all_calls _ (if ?b then _ else _) => destruct b eqn:?
  | |- all_calls _ (let (_, _) := ?r in _) => destruct r eqn:?
  | |- all_calls _ (_ ≫= _) => apply all_calls_bind; [|intros ?]
  end.

(** ** Stepping through a run *)

Lemma run_lift_bind {A B} (h : env) t (r : result A) (k : A → prog B) :
  run h t (lift r ≫= k) =
  match r with Ok a => run h t (k a) | Raise x => (t, Raise x) end.
Proof. by destruct r. Qed.

Lemma run_call_bind {B} (h : env) t (e : event) (k : resp e → prog B) :
  run h t (call e ≫= k) =
  match h t e with
  | Ok r => run h (t ++ [Entry e (Ok r)]) (k r)
  | Raise x => (t ++ [Entry e (Raise x)], Raise x)
  end.
Proof. reflexivity. Qed.

Lemma run_ret {A} (h : env) t (a : A) : run h t (Ret a) = (t, Ok a).
Proof. reflexivity. Qed.

Lemma run_throw {A} (h : env) t x : run h t (Throw x : prog A) = (t, Raise x).
Proof. reflexivity. Qed.

(** One step of the program at the head of a run: a pure step is decided,
    a call is answered either way. *)
Ltac run_step :=
  cbv beta iota delta [resp];
  match goal with
  | |- context [run ?h ?t (lift ?r ≫= ?k)] =>
      rewrite (run_lift_bind h t r k);
      lazymatch r with
      | Ok _ => idtac
      | Raise _ => idtac
      | _ => destruct r eqn:?
      end
  | |- context [run ?h ?t (call ?e ≫= ?k)] =>
      let E := fresh in
      pose proof (run_call_bind h t e k) as E;
      cbv beta iota delta [resp] in E; rewrite E; clear E;
      destruct (h t e) eqn:?
  | |- context [run ?h ?t (call ?e)] =>
      let E := fresh in
      pose proof (run_call h e t) as E;
      cbv beta iota delta [resp] in E; rewrite E; clear E;
      destruct (h t e) eqn:?
  | |- context [run ?h ?t (lift ?r)] =>
      rewrite (run_lift h r t);
      lazymatch r with
      | Ok _ => idtac
      | Raise _ => idtac
      | _ => destruct r eqn:?
      end
  | |- context [run ?h ?t (Ret ?a)] => rewrite (run_ret h t a)
  | |- context [run ?h ?t (Throw ?x)] => rewrite (run_throw h t x)
  | |- context [run ?h ?t (if ?b then _ else _)] => destruct b eqn:?
  | |- context [run ?h ?t ((if ?b then _ else _) ≫= _)] => destruct b eqn:?
  | |- context [run ?h ?t (?p ≫= ?k)] => rewrite (run_bind h p k t)
  end;
  cbv beta iota delta [resp].

(** ** Dataloader *)

(** C3: when the configured [data_path] does not exist, [get_dataloader]
    raises the data-path error right after the existence check: the log
    gains that one line, so no dataloader was asked for. *)
Theorem missing_data_path_raises (h : env) (t : list entry)
    (args : gmap string pyval) (config dl data_path : pyval) :
  py_getitem config "dataloader" = Ok dl →
  py_getitem dl "data_path" = Ok data_path →
  h t (EExists data_path) = Ok false →
  run h t (get_dataloader args config) =
  (t ++ [Entry (EExists data_path) (Ok false)],
   Raise (RuntimeError "[run_upstream] - Data path not valid:" data_path)).
Proof.
  intros Hdl Hp Hex. unfold get_dataloader.
  rewrite Hdl. simpl. rewrite Hp. simpl. rewrite Hex. reflexivity.
Qed.

Lemma missing_data_path_raises_witness :
  run sample_env [] (get_dataloader (vars_of_cli cli_default) sample_config) =
  ([] ++ [Entry (EExists (VStr "data/libri")) (Ok false)],
   Raise (RuntimeError "[run_upstream] - Data path not valid:"
            (VStr "data/libri"))).
Proof.
  eapply (missing_data_path_raises sample_env []); reflexivity.
Defined.

Lemma get_dataloader_calls args config :
  all_calls (loads_mode_of config) (get_dataloader args config).
Proof.
  unfold get_dataloader. calls; try exact I.
  all: simpl; repeat split; eexists _, _; repeat split; eauto.
Qed.

Lemma get_dataloader_returns (h : env) t args config d :
  (run h t (get_dataloader args config)).2 = Ok d →
  ∃ load use_gpu mam_config kwargs,
    mode_of config load ∧
    (length t < length (run h t (get_dataloader args config)).1)%nat ∧
    last (run h t (get_dataloader args config)).1 =
      Some (Entry (EGetDataloader "train" load use_gpu true mam_config kwargs)
              (Ok d)).
Proof.
  unfold get_dataloader.
  repeat (run_step; try (simpl; discriminate)).
  all: intros [= <-]; eexists _, _, _, _;
    (split; [eexists _, _; eauto|]); simpl;
    (split; [rewrite !length_app; simpl; lia | by rewrite last_snoc]).
Qed.

Lemma py_kwargs_fresh (d : gmap string pyval) :
  (∀ k, k ∈ explicit_keywords → d !! k = None) → py_kwargs (VDict d) = Ok d.
Proof.
  intros Hkw. unfold py_kwargs.
  destruct (existsb _ explicit_keywords) eqn:He; [|done].
  apply existsb_exists in He as (k & Hin & Hk).
  apply bool_decide_eq_true in Hk. rewrite Hkw in Hk.
  - by destruct Hk.
  - by apply list_elem_of_In.
Qed.

(** The run of [get_dataloader] on a machine whose answers are known:
    every step is taken, the answers are filled in, and the branches the
    hypotheses rule out are closed. *)
Ltac dataloader_run Hex Hpr Hget Hb :=
  repeat run_step;
  repeat match goal with
    | H : _ _ (EExists _) = _ |- _ => rewrite Hex in H
    | H : _ _ (EPrint _) = _ |- _ => rewrite Hpr in H
    end;
  simplify_eq/=;
  try (rewrite Hb in *; simplify_eq/=);
  repeat match goal with
    | H : _ _ (EGetDataloader _ _ _ _ _ _) = _ |- _ => rewrite Hget in H
    end;
  simplify_eq/=;
  by rewrite <- ?app_assoc.

(** C8: [get_dataloader] asks the dataloader constructor for mode [duo]
    when [config['runner']['duo_feature']] is truthy and for mode
    [acoustic] otherwise.  On a config that holds what lines 97-107 read
    (in duo mode the target path too), with the data path present and the
    prints and the constructor returning, the run is the path check, the
    messages and one constructor call in that mode, for the training split
    with [run_mam=True], whose answer is returned.  And whatever the
    machine, the log and the arguments, no constructor call of
    [get_dataloader] on this config asks for another mode. *)
Theorem dataloader_feature_mode (h : env) (t : list entry)
    (args : gmap string pyval)
    (config train_set runner duo_feature use_gpu mam_config : pyval)
    (dl : gmap string pyval) (data_path : string) (d : obj) :
  py_getitem config "dataloader" = Ok (VDict dl) →
  dl !! "data_path" = Some (VStr data_path) →
  dl !! "train_set" = Some train_set →
  py_getitem config "runner" = Ok runner →
  py_getitem runner "duo_feature" = Ok duo_feature →
  (py_bool duo_feature = true → ∃ tp, dl !! "target_path" = Some (VStr tp)) →
  args !! "gpu" = Some use_gpu →
  py_getitem config "transformer" = Ok mam_config →
  (∀ k, k ∈ explicit_keywords → dl !! k = None) →
  (∀ t p, h t (EExists p) = Ok true) →
  (∀ t m, h t (EPrint m) = Ok tt) →
  (∀ t load, h t (EGetDataloader "train" load use_gpu true mam_config dl)
             = Ok d) →
  run h t (get_dataloader args config) =
    (t ++ [Entry (EExists (VStr data_path)) (Ok true);
           Entry (EPrint [VStr "[run_upstream] - Loading input data: ";
                          train_set; VStr " from "; VStr data_path]) (Ok tt);
           Entry (EPrint [VStr "[run_upstream] - getting train dataloader..."])
             (Ok tt)]
       ++ (if py_bool duo_feature then
             match dl !! "target_path" with
             | Some (VStr tp) =>
                 [Entry (EPrint [VStr "[run_upstream] - Loading duo data: ";
                                 train_set; VStr " from "; VStr tp]) (Ok tt)]
             | _ => []
             end
           else [])
       ++ [Entry (EGetDataloader "train"
                    (if py_bool duo_feature then "duo" else "acoustic")
                    use_gpu true mam_config dl) (Ok d)],
     Ok d) ∧
  (∀ (h' : env) (t0 : list entry) (args' : gmap string pyval),
      ∃ t', (run h' t0 (get_dataloader args' config)).1 = t0 ++ t' ∧
        ∀ split load gpu run_mam mam kwargs r,
          Entry (EGetDataloader split load gpu run_mam mam kwargs) r ∈ t' →
          split = "train" ∧ run_mam = true ∧
          (py_bool duo_feature = true → load = "duo") ∧
          (py_bool duo_feature = false → load = "acoustic")).
Proof.
  intros Hdl Hp Hts Hrun Hduo Htp Hgpu Hmam Hkw Hex Hpr Hget. split.
  - unfold get_dataloader.
    assert (py_getitem (VDict dl) "data_path" = Ok (VStr data_path)) as Hp'
      by (simpl; by rewrite Hp).
    assert (py_getitem (VDict dl) "train_set" = Ok train_set) as Hts'
      by (simpl; by rewrite Hts).
    pose proof (py_kwargs_fresh dl Hkw) as Hkw'.
    assert (getattr args "gpu" = Ok use_gpu) as Hgpu'
      by (unfold getattr; by rewrite Hgpu).
    rewrite Hdl, Hrun, Hmam.
    destruct (py_bool duo_feature) eqn:Hb.
    + destruct (Htp eq_refl) as [tp Htp'].
      assert (py_getitem (VDict dl) "target_path" = Ok (VStr tp)) as Htp''
        by (simpl; by rewrite Htp').
      rewrite Htp'. dataloader_run Hex Hpr Hget Hb.
    + dataloader_run Hex Hpr Hget Hb.
  - intros h' t0 args'.
    destruct (all_calls_run _ _ h' t0 (get_dataloader_calls args' config))
      as (t' & Ht' & Hall).
    exists t'. split; [exact Ht'|].
    intros split load gpu run_mam mam kwargs r Hin.
    rewrite Forall_forall in Hall. specialize (Hall _ Hin). simpl in Hall.
    destruct Hall as (-> & -> & runner' & duo' & Hr & Hd & ->).
    rewrite Hrun in Hr. injection Hr as <-.
    rewrite Hduo in Hd. injection Hd as <-.
    repeat split; by intros ->.
Qed.

Lemma dataloader_feature_mode_witness :
  run present_env []
    (get_dataloader (setattr (vars_of_cli sample_cli_train) "gpu" (VBool true))
       sample_config) =
    ([] ++ [Entry (EExists (VStr "data/libri")) (Ok true);
            Entry (EPrint [VStr "[run_upstream] - Loading input data: ";
                           VList [VStr "train"]; VStr " from ";
                           VStr "data/libri"]) (Ok tt);
            Entry (EPrint [VStr "[run_upstream] - getting train dataloader..."])
              (Ok tt)]
        ++ (if py_bool (VBool false) then
              match (list_to_map
                       [("data_path", VStr "data/libri");
                        ("train_set", VList [VStr "train"])]
                     : gmap string pyval) !! "target_path" with
              | Some (VStr tp) =>
                  [Entry (EPrint [VStr "[run_upstream] - Loading duo data: ";
                                  VList [VStr "train"]; VStr " from "; VStr tp])
                     (Ok tt)]
              | _ => []
              end
            else [])
        ++ [Entry (EGetDataloader "train"
                     (if py_bool (VBool false) then "duo" else "acoustic")
                     (VBool true) true
                     (VDict (list_to_map [("input_dim", VInt 160)]))
                     (list_to_map
                        [("data_path", VStr "data/libri");
                         ("train_set", VList [VStr "train"])]))
              (Ok 1%positive)],
     Ok 1%positive) ∧
  (∀ (h' : env) (t0 : list entry) (args' : gmap string pyval),
      ∃ t', (run h' t0 (get_dataloader args' sample_config)).1 = t0 ++ t' ∧
        ∀ split load gpu run_mam mam kwargs r,
          Entry (EGetDataloader split load gpu run_mam mam kwargs) r ∈ t' →
          split = "train" ∧ run_mam = true ∧
          (py_bool (VBool false) = true → load = "duo") ∧
          (py_bool (VBool false) = false → load = "acoustic")).
Proof.
  apply (dataloader_feature_mode present_env []
           (setattr (vars_of_cli sample_cli_train) "gpu" (VBool true))
           sample_config (VList [VStr "train"])
           (VDict (list_to_map [("duo_feature", VBool false)]))
           (VBool false) (VBool true)
           (VDict (list_to_map [("input_dim", VInt 160)]))
           (list_to_map
              [("data_path", VStr "data/libri");
               ("train_set", VList [VStr "train"])])
           "data/libri" 1%positive).
  - reflexivity.
  - reflexivity.
  - reflexivity.
  - reflexivity.
  - reflexivity.
  - discriminate.
  - reflexivity.
  - reflexivity.
  - intros k Hk. unfold explicit_keywords in Hk.
    repeat (apply elem_of_cons in Hk as [->|Hk]; [reflexivity|]).
    by apply elem_of_nil in Hk.
  - reflexivity.
  - reflexivity.
  - reflexivity.
Defined.

(** ** Checkpoint directory *)

Lemma basename_no_slash s : occurs "/" s = false → basename s = s.
Proof.
  destruct s as [|c s]; simpl; [done|].
  intros [Hc Hs]%orb_false_iff. by rewrite Hs, Hc.
Qed.

Lemma occurs_last_split c s :
  occurs c s = true → ∃ a b, s = (a ++ String c b)%string ∧ occurs c b = false.
Proof.
  induction s as [|x s IH]; simpl; [done|].
  destruct (occurs c s) eqn:Hs.
  - intros _. destruct IH as (a & b & -> & Hb); [done|].
    by exists (String x a), b.
  - rewrite orb_false_r. intros ->%Ascii.eqb_eq. by exists EmptyString, s.
Qed.

Lemma basename_app a b :
  occurs "/" b = false → basename (a ++ String "/" b) = b.
Proof.
  intros Hb. induction a as [|c a IH].
  - simpl. by rewrite Hb.
  - change (basename (String c (a ++ String "/" b)) = b). simpl.
    rewrite occurs_app. simpl. by rewrite orb_true_r.
Qed.

Lemma py_last_split_basename s : py_last (py_split "/" s) = Ok (basename s).
Proof.
  destruct (occurs "/" s) eqn:Hs.
  - apply occurs_last_split in Hs as (a & b & -> & Hb).
    by rewrite py_last_split_tail, basename_app.
  - unfold py_last. by rewrite (py_split_no_sep _ _ Hs), basename_no_slash.
Qed.

Lemma occurs_basename s : occurs "/" (basename s) = false.
Proof.
  induction s as [|c s IH]; [done|]. simpl.
  destruct (occurs "/" s) eqn:Hs; [done|].
  destruct (Ascii.eqb c "/") eqn:Hc; [done|]. simpl. by rewrite Hc, Hs.
Qed.

Lemma join_ok_all : forallb join_ok (seqZ 0 1000) = true.
Proof. vm_compute. reflexivity. Qed.

Lemma join_ok_range n : 0 ≤ n ≤ 999 → join_ok n = true.
Proof.
  intros Hn. pose proof join_ok_all as Hall.
  rewrite forallb_forall in Hall. apply Hall.
  apply list_elem_of_In, elem_of_seqZ. lia.
Qed.

Lemma path_join_default_name n :
  path_join "result/result_transformer/" ("run_" ++ pretty n) = default_dir n.
Proof. reflexivity. Qed.

Lemma prefixb_slash_occurs s : occurs "/" s = false → prefixb "/" s = false.
Proof.
  destruct s as [|c s]; [done|]. intros H.
  change (Ascii.eqb c "/" || occurs "/" s = false) in H.
  apply orb_false_iff in H as [Hc _].
  change (Ascii.eqb "/" c && true = false).
  by rewrite Ascii.eqb_sym, Hc.
Qed.

Lemma path_join_default n base :
  0 ≤ n ≤ 999 → occurs "/" base = false →
  path_join (default_dir n) base = (default_dir n ++ "/" ++ base)%string.
Proof.
  intros Hn Hb. unfold path_join. rewrite (prefixb_slash_occurs _ Hb).
  pose proof (join_ok_range n Hn) as Hj. unfold join_ok in Hj.
  apply andb_true_iff in Hj as [H1 H2].
  apply negb_true_iff in H1, H2. by rewrite H1, H2.
Qed.

Lemma getattr_lookup args k v : args !! k = Some v → getattr args k = Ok v.
Proof. unfold getattr. by intros ->. Qed.


Lemma setup_default_directory (h : env) (t : list entry)
    (args args' : gmap string pyval) (config ckpdir : pyval) (cfg : string) :
  args !! "ckpdir" = Some (VStr "") →
  args !! "name" = Some VNone →
  args !! "config" = Some (VStr cfg) →
  randint_in_range h →
  (run h t (run_transformer_setup args)).2 = Ok (args', ckpdir) →
  ∃ (n : Z) (found : bool),
    0 ≤ n ≤ 999 ∧
    args' = <["name" := VStr ("run_" ++ pretty n)]> args ∧
    ckpdir = VStr (default_dir n) ∧
    (run h t (run_transformer_setup args)).1 =
      t ++ [Entry (EImport "transformer.runner") (Ok tt);
            Entry (ERandint 0 999) (Ok n);
            Entry (EExists (VStr (default_dir n))) (Ok found)]
        ++ (if found then []
            else [Entry (EMakedirs (VStr (default_dir n))) (Ok tt)])
        ++ [Entry (ECopyfile cfg (default_dir n ++ "/" ++ basename cfg)) (Ok tt)]
        ++ match args !! "online_config" with
           | Some (VStr oc) =>
               [Entry (ECopyfile oc (default_dir n ++ "/" ++ basename oc))
                  (Ok tt)]
           | _ => []
           end.
Proof.
  intros Hck Hname Hcfg Hrand.
  unfold run_transformer_setup.
  rewrite (getattr_lookup _ _ _ Hck).
  change (py_eq_str (VStr "") "") with true. cbv iota.
  rewrite (getattr_lookup _ _ _ Hname).
  change (py_is_none VNone) with true. cbv iota.
  repeat (run_step; try (simpl; discriminate)).
  all: simpl; intros [= <- <-].
  all: unfold getattr, setattr in *.
  all: repeat match goal with
       | H : context [<[_:=_]> _ !! _] |- _ =>
           first [rewrite lookup_insert_eq in H
                 | rewrite lookup_insert_ne in H by done]
       end.
  all: repeat match goal with
       | H : context [py_last (py_split "/" _)] |- _ =>
           rewrite py_last_split_basename in H
       | H : match _ !! "config" with _ => _ end = _ |- _ =>
           rewrite Hcfg in H
       end.
  all: destruct (args !! "online_config") as [oc|] eqn:Hoc; simplify_eq/=.
  all: repeat match goal with u : unit |- _ => destruct u end.
  all: match goal with H : _ _ (ERandint 0 999) = Ok ?n |- _ =>
         pose proof (Hrand _ _ _ _ H) as Hn
       end.
  all: rewrite ?path_join_default_name in *.
  all: rewrite ?path_join_default in * by (done || apply occurs_basename).
  all: match goal with
       | H : _ _ (EExists _) = Ok ?b, H' : _ _ (ERandint _ _) = Ok ?n |- _ =>
           exists n, b
       end.
  all: repeat match goal with
       | H : negb _ = true |- _ => apply negb_true_iff in H
       | H : negb _ = false |- _ => apply negb_false_iff in H
       end; subst.
  all: repeat match goal with
       | H : py_split_attr ?v = Ok _ |- _ =>
           destruct v; try discriminate H; injection H as <-
       | H : py_is_none ?v = true |- _ =>
           destruct v; try discriminate H; clear H
       end.
  all: split; [lia|]; split; [done|]; split; [done|].
  all: rewrite <- ?app_assoc; reflexivity.
Qed.

Lemma run_transformer_after_setup (h : env) t args config t1 args' ckpdir :
  run h t (run_transformer_setup args) = (t1, Ok (args', ckpdir)) →
  run h t (run_transformer args config) =
  run h t1
    (online ← lift (py_in "online" config);
     dataloader ← (if (online : bool)
                   then call (EGetOnlineDataloader args' config true)
                   else get_dataloader args' config);
     run_transformer_train args' config dataloader ckpdir).
Proof. intros Hs. unfold run_transformer. by rewrite run_bind, Hs. Qed.

(** C4: with [--ckpdir] and [--name] unset, what [run_transformer] does up
    to the end of its [# mkdir] block is: draw [n] with
    [random.randint(0, 999)], test [result/result_transformer/run_<n>] for
    existence and create it when absent, copy the config file there under
    its base name, and likewise the online config when one was given. *)
Theorem default_checkpoint_directory (h : env) (t : list entry)
    (args args' : gmap string pyval) (config ckpdir : pyval) (cfg : string) :
  args !! "ckpdir" = Some (VStr "") →
  args !! "name" = Some VNone →
  args !! "config" = Some (VStr cfg) →
  randint_in_range h →
  (run h t (run_transformer_setup args)).2 = Ok (args', ckpdir) →
  ∃ (n : Z) (found : bool) (rest : list entry),
    0 ≤ n ≤ 999 ∧
    default_dir n = ("result/result_transformer/run_" ++ pretty n)%string ∧
    args' = <["name" := VStr ("run_" ++ pretty n)]> args ∧
    ckpdir = VStr (default_dir n) ∧
    (run h t (run_transformer args config)).1 =
      t ++ [Entry (EImport "transformer.runner") (Ok tt);
            Entry (ERandint 0 999) (Ok n);
            Entry (EExists (VStr (default_dir n))) (Ok found)]
        ++ (if found then []
            else [Entry (EMakedirs (VStr (default_dir n))) (Ok tt)])
        ++ [Entry (ECopyfile cfg (default_dir n ++ "/" ++ basename cfg)) (Ok tt)]
        ++ match args !! "online_config" with
           | Some (VStr oc) =>
               [Entry (ECopyfile oc (default_dir n ++ "/" ++ basename oc))
                  (Ok tt)]
           | _ => []
           end
        ++ rest.
Proof.
  intros Hck Hname Hcfg Hrand Hret.
  destruct (setup_default_directory h t args args' config ckpdir cfg
              Hck Hname Hcfg Hrand Hret)
    as (n & found & Hn & Hargs & Hdir & Htrace).
  destruct (run h t (run_transformer_setup args)) as [t1 r] eqn:Hs.
  simpl in Hret, Htrace. subst r.
  rewrite (run_transformer_after_setup h t args config t1 args' ckpdir Hs).
  destruct (run_extends h
    (online ← lift (py_in "online" config);
     dataloader ← (if (online : bool)
                   then call (EGetOnlineDataloader args' config true)
                   else get_dataloader args' config);
     run_transformer_train args' config dataloader ckpdir) t1) as [rest Hrest].
  exists n, found, rest.
  split; [lia|]. split; [done|]. split; [done|]. split; [done|].
  rewrite Hrest, Htrace. rewrite <- !app_assoc. f_equal. simpl.
  by rewrite <- app_assoc.
Qed.

Lemma sample_env_randint : randint_in_range sample_env.
Proof.
  intros t a b n. simpl.
  destruct (a <=? 7) eqn:Ha; destruct (7 <=? b) eqn:Hb;
    destruct (a <=? b) eqn:Hab; simpl; intros [= <-]; lia.
Qed.

Lemma default_checkpoint_directory_witness :
  ∃ (n : Z) (found : bool) (rest : list entry),
    0 ≤ n ≤ 999 ∧
    default_dir n = ("result/result_transformer/run_" ++ pretty n)%string ∧
    <["name" := VStr "run_7"]>
      (setattr (vars_of_cli sample_cli_train) "gpu" (VBool true))
    = <["name" := VStr ("run_" ++ pretty n)]>
        (setattr (vars_of_cli sample_cli_train) "gpu" (VBool true)) ∧
    VStr "result/result_transformer/run_7" = VStr (default_dir n) ∧
    (run sample_env []
       (run_transformer
          (setattr (vars_of_cli sample_cli_train) "gpu" (VBool true))
          sample_config)).1 =
      [] ++ [Entry (EImport "transformer.runner") (Ok tt);
            Entry (ERandint 0 999) (Ok n);
            Entry (EExists (VStr (default_dir n))) (Ok found)]
        ++ (if found then []
            else [Entry (EMakedirs (VStr (default_dir n))) (Ok tt)])
        ++ [Entry (ECopyfile "config/tera.yaml"
                     (default_dir n ++ "/" ++ basename "config/tera.yaml"))
              (Ok tt)]
        ++ match setattr (vars_of_cli sample_cli_train) "gpu" (VBool true)
                   !! "online_config" with
           | Some (VStr oc) =>
               [Entry (ECopyfile oc (default_dir n ++ "/" ++ basename oc))
                  (Ok tt)]
           | _ => []
           end
        ++ rest.
Proof.
  apply (default_checkpoint_directory sample_env []
           (setattr (vars_of_cli sample_cli_train) "gpu" (VBool true))
           (<["name" := VStr "run_7"]>
              (setattr (vars_of_cli sample_cli_train) "gpu" (VBool true)))
           sample_config (VStr "result/result_transformer/run_7")
           "config/tera.yaml").
  - reflexivity.
  - reflexivity.
  - reflexivity.
  - exact sample_env_randint.
  - vm_compute. reflexivity.
Defined.

(** ** Choice of the dataloader *)

Lemma get_dataloader_static args config :
  all_calls (λ e, is_static_call e = true) (get_dataloader args config).
Proof. unfold get_dataloader. calls; done. Qed.

Lemma run_transformer_train_calls args config dataloader ckpdir :
  all_calls (λ e, is_runner_call e = true)
    (run_transformer_train args config dataloader ckpdir).
Proof. unfold run_transformer_train. calls; done. Qed.

(** The first thing [get_dataloader] does with a configured data path is to
    test that it exists. *)
Lemma get_dataloader_checks_path (h : env) t args config dl data_path :
  py_getitem config "dataloader" = Ok dl →
  py_getitem dl "data_path" = Ok data_path →
  ∃ t', (run h t (get_dataloader args config)).1 =
        t ++ Entry (EExists data_path) (h t (EExists data_path)) :: t'.
Proof.
  intros Hdl Hp. unfold get_dataloader.
  rewrite run_lift_bind, Hdl, run_lift_bind, Hp.
  run_step.
  - match goal with |- context [run h ?t1 ?p] =>
      destruct (run_extends h p t1) as [t' Ht'] end.
    exists t'. rewrite Ht'. by rewrite <- app_assoc.
  - by exists [].
Qed.

(** C7: once the setup block of [run_transformer] has completed, a config
    with an [online] section makes the very next call the online dataloader
    constructor, followed by calls on the runner only: [get_dataloader] and
    its path check do not happen.  A config without that section continues
    as [get_dataloader] does, starting with the existence check of the data
    path, and never asks for the online dataloader. *)
Theorem online_section_selects_dataloader (h : env) (t t1 : list entry)
    (args args' : gmap string pyval) (d : gmap string pyval) (ckpdir : pyval) :
  run h t (run_transformer_setup args) = (t1, Ok (args', ckpdir)) →
  (is_Some (d !! "online") →
     ∃ r rest,
       (run h t (run_transformer args (VDict d))).1 =
         t1 ++ Entry (EGetOnlineDataloader args' (VDict d) true) r :: rest ∧
       Forall (λ en, is_runner_call (entry_event en) = true) rest) ∧
  (d !! "online" = None →
     ∃ t2 rest,
       (run h t1 (get_dataloader args' (VDict d))).1 = t1 ++ t2 ∧
       (run h t (run_transformer args (VDict d))).1 = t1 ++ t2 ++ rest ∧
       Forall (λ en, is_static_call (entry_event en) = true) t2 ∧
       Forall (λ en, is_runner_call (entry_event en) = true) rest ∧
       (∀ dl data_path,
           d !! "dataloader" = Some dl →
           py_getitem dl "data_path" = Ok data_path →
           ∃ r, head t2 = Some (Entry (EExists data_path) r))).
Proof.
  intros Hs. rewrite (run_transformer_after_setup h t args _ t1 args' ckpdir Hs).
  split.
  - intros Hon. simpl py_in. rewrite bool_decide_true by done.
    rewrite run_lift_bind. cbv iota beta.
    run_step.
    + rename a into dl. destruct (all_calls_run _ _ h
                  (t1 ++ [Entry (EGetOnlineDataloader args' (VDict d) true)
                            (Ok dl)])
                  (run_transformer_train_calls args' (VDict d) dl ckpdir))
        as (rest & Hrest & Hall).
      exists (Ok dl), rest. split; [|done].
      cbv beta iota delta [resp] in Hrest.
      rewrite Hrest. by rewrite <- app_assoc.
    + by eexists (Raise _), [].
  - intros Hoff. simpl py_in. rewrite bool_decide_false
      by (rewrite Hoff; by intros [? ?]).
    rewrite run_lift_bind. cbv iota beta. rewrite run_bind.
    destruct (all_calls_run _ _ h t1 (get_dataloader_static args' (VDict d)))
      as (t2 & Ht2 & Hstatic).
    destruct (run h t1 (get_dataloader args' (VDict d))) as [t' [dl|x]] eqn:Hrun;
      simpl in Ht2; subst t'.
    + destruct (all_calls_run _ _ h (t1 ++ t2)
                  (run_transformer_train_calls args' (VDict d) dl ckpdir))
        as (rest & Hrest & Hall).
      exists t2, rest. split; [done|]. split.
      { rewrite Hrest. by rewrite <- app_assoc. }
      split; [done|]. split; [done|].
      intros dl0 data_path Hdl Hp.
      destruct (get_dataloader_checks_path h t1 args' (VDict d) dl0 data_path)
        as [t' Ht']; [by simpl; rewrite Hdl | done |].
      rewrite Hrun in Ht'. simpl in Ht'. apply app_inv_head in Ht'.
      subst t2. by eexists.
    + exists t2, []. split; [done|]. split; [by rewrite app_nil_r|].
      split; [done|]. split; [done|].
      intros dl0 data_path Hdl Hp.
      destruct (get_dataloader_checks_path h t1 args' (VDict d) dl0 data_path)
        as [t' Ht']; [by simpl; rewrite Hdl | done |].
      rewrite Hrun in Ht'. simpl in Ht'. apply app_inv_head in Ht'.
      subst t2. by eexists.
Qed.

Lemma online_section_selects_dataloader_witness :
  (is_Some (<["online" := VDict ∅]> sample_sections !! "online") →
     ∃ r rest,
       (run sample_env []
          (run_transformer
             (setattr (vars_of_cli sample_cli_train) "gpu" (VBool true))
             (VDict (<["online" := VDict ∅]> sample_sections)))).1 =
         (run sample_env []
            (run_transformer_setup
               (setattr (vars_of_cli sample_cli_train) "gpu" (VBool true)))).1
         ++ Entry (EGetOnlineDataloader
                     (<["name" := VStr "run_7"]>
                        (setattr (vars_of_cli sample_cli_train) "gpu"
                           (VBool true)))
                     (VDict (<["online" := VDict ∅]> sample_sections)) true) r
            :: rest ∧
       Forall (λ en, is_runner_call (entry_event en) = true) rest) ∧
  (<["online" := VDict ∅]> sample_sections !! "online" = None →
     ∃ t2 rest,
       (run sample_env
          (run sample_env []
            (run_transformer_setup
               (setattr (vars_of_cli sample_cli_train) "gpu" (VBool true)))).1
          (get_dataloader
             (<["name" := VStr "run_7"]>
                (setattr (vars_of_cli sample_cli_train) "gpu" (VBool true)))
             (VDict (<["online" := VDict ∅]> sample_sections)))).1 =
         (run sample_env []
            (run_transformer_setup
               (setattr (vars_of_cli sample_cli_train) "gpu" (VBool true)))).1
         ++ t2 ∧
       (run sample_env []
          (run_transformer
             (setattr (vars_of_cli sample_cli_train) "gpu" (VBool true))
             (VDict (<["online" := VDict ∅]> sample_sections)))).1 =
         (run sample_env []
            (run_transformer_setup
               (setattr (vars_of_cli sample_cli_train) "gpu" (VBool true)))).1
         ++ t2 ++ rest ∧
       Forall (λ en, is_static_call (entry_event en) = true) t2 ∧
       Forall (λ en, is_runner_call (entry_event en) = true) rest ∧
       (∀ dl data_path,
           <["online" := VDict ∅]> sample_sections !! "dataloader" = Some dl →
           py_getitem dl "data_path" = Ok data_path →
           ∃ r, head t2 = Some (Entry (EExists data_path) r))).
Proof.
  apply (online_section_selects_dataloader sample_env []
           (run sample_env []
              (run_transformer_setup
                 (setattr (vars_of_cli sample_cli_train) "gpu" (VBool true)))).1
           (setattr (vars_of_cli sample_cli_train) "gpu" (VBool true))
           (<["name" := VStr "run_7"]>
              (setattr (vars_of_cli sample_cli_train) "gpu" (VBool true)))
           (<["online" := VDict ∅]> sample_sections)
           (VStr "result/result_transformer/run_7")).
  vm_compute. reflexivity.
Defined.

(** ** Dispatch *)

Lemma resolve_resume_calls resume :
  all_calls (λ e, reads_settings e = true) (resolve_resume resume).
Proof. unfold resolve_resume. calls; done. Qed.

Lemma get_upstream_args_calls c :
  all_calls (λ e, reads_settings e = true) (get_upstream_args c).
Proof.
  unfold get_upstream_args. destruct (cli_resume c).
  - apply all_calls_bind; [apply resolve_resume_calls|]. intros. calls; done.
  - calls; done.
Qed.

Lemma fix_seed_calls args :
  all_calls (λ e, is_seed_call e = true) (fix_seed args).
Proof. unfold fix_seed. calls; done. Qed.

Lemma test_transformer_calls args input_dim :
  all_calls (λ e, is_test_call e = true) (test_transformer args input_dim).
Proof. unfold test_transformer. calls; done. Qed.

Lemma run_main (h : env) c t0 args config :
  run h [] (get_upstream_args c) = (t0, Ok (args, config)) →
  run h [] (main c) =
  match run h t0 (fix_seed args) with
  | (t1, Ok _) => run h t1 (dispatch args config)
  | (t1, Raise x) => (t1, Raise x)
  end.
Proof.
  intros Hargs. unfold main. rewrite run_bind, Hargs. cbv beta iota.
  by rewrite run_bind.
Qed.

Lemma dispatch_apc_test args config v :
  args !! "run" = Some (VStr "apc") →
  args !! "test" = Some v →
  py_eq_str v "" = false →
  dispatch args config = Throw NotImplementedError.
Proof.
  intros Hrun Htest Hv. unfold dispatch, getattr.
  rewrite Hrun. simpl. rewrite Htest. simpl. by rewrite Hv.
Qed.

Lemma dispatch_transformer_test args config v :
  args !! "run" = Some (VStr "transformer") →
  args !! "test" = Some v →
  py_eq_str v "" = false →
  dispatch args config =
  (tr ← lift (py_getitem config "transformer");
   input_dim ← lift (py_getitem tr "input_dim");
   _ ← test_transformer args input_dim;
   Ret tt).
Proof.
  intros Hrun Htest Hv. unfold dispatch, getattr.
  rewrite Hrun. simpl. rewrite Htest. simpl. by rewrite Hv.
Qed.

Lemma seed_call_harmless e :
  is_seed_call e = true →
  loads_model e = false ∧ builds_dataloader e = false ∧ writes_fs e = false ∧
  is_runner_call e = false.
Proof. by destruct e. Qed.

Lemma reads_settings_harmless e :
  reads_settings e = true →
  loads_model e = false ∧ builds_dataloader e = false ∧ writes_fs e = false ∧
  is_runner_call e = false.
Proof. by destruct e. Qed.

Lemma test_call_harmless e :
  is_test_call e = true →
  builds_dataloader e = false ∧ writes_fs e = false ∧ is_runner_call e = false.
Proof. by destruct e. Qed.

Lemma dispatch_test_calls args config v :
  args !! "run" = Some (VStr "transformer") →
  args !! "test" = Some v →
  py_eq_str v "" = false →
  all_calls (λ e, is_test_call e = true) (dispatch args config).
Proof.
  intros Hrun Htest Hv.
  rewrite (dispatch_transformer_test args config v Hrun Htest Hv).
  apply all_calls_lift_bind; intros tr _.
  apply all_calls_lift_bind; intros input_dim _.
  apply all_calls_bind; [apply test_transformer_calls|]. by intros.
Qed.

(** Without [--resume], the fields the dispatch reads are the parsed ones. *)
Lemma get_upstream_args_fresh (h : env) (c : cli_args) t0 args config :
  cli_resume c = None →
  run h [] (get_upstream_args c) = (t0, Ok (args, config)) →
  args = setattr (vars_of_cli c) "gpu" (VBool (negb (cli_cpu c))) ∧
  args !! "run" = Some (opt_str (run_name <$> cli_run c)) ∧
  args !! "test" = Some (VStr (cli_test c)) ∧
  args !! "ckpdir" = Some (VStr (cli_ckpdir c)) ∧
  args !! "name" = Some (opt_str (cli_name c)).
Proof.
  intros Hc. unfold get_upstream_args. rewrite Hc.
  change (getattr (vars_of_cli c) "cpu") with (Ok (VBool (cli_cpu c)) : result pyval).
  rewrite run_lift_bind. cbv beta iota.
  repeat (run_step; try discriminate).
  all: intros [= <- <- <-]; by repeat split.
Qed.

(** With or without [--resume], what the dispatch will see. *)
Lemma selected_test (h : env) (c : cli_args) (r : run_choice) t0 args config :
  flags_test c r ∨ resolved_test h c (run_name r) →
  run h [] (get_upstream_args c) = (t0, Ok (args, config)) →
  ∃ v, args !! "run" = Some (VStr (run_name r)) ∧
       args !! "test" = Some v ∧ py_eq_str v "" = false.
Proof.
  intros [(Hres & Hrun & Htest)|(t0' & args' & config' & v & Hargs' & Hsel)]
    Hargs.
  - destruct (get_upstream_args_fresh h c t0 args config Hres Hargs)
      as (_ & Hr & Ht & _).
    rewrite Hrun in Hr. exists (VStr (cli_test c)).
    split; [exact Hr|]. split; [exact Ht|]. simpl. by apply String.eqb_neq.
  - rewrite Hargs in Hargs'. injection Hargs' as <- <- <-. by exists v.
Qed.

Lemma main_load_fails (h : env) (c : cli_args) t0 y :
  run h [] (get_upstream_args c) = (t0, Raise y) →
  run h [] (main c) = (t0, Raise y).
Proof. intros Hargs. unfold main. by rewrite run_bind, Hargs. Qed.

Lemma settings_log (h : env) (c : cli_args) :
  Forall (λ en, reads_settings (entry_event en) = true)
    (run h [] (get_upstream_args c)).1.
Proof.
  destruct (all_calls_run _ _ h [] (get_upstream_args_calls c))
    as (t0 & Ht0 & Hread).
  by rewrite Ht0.
Qed.

(** C6: [main] on arguments that select [apc] with a non-empty test path:
    on every command line without [--resume] that gives [--run apc] and a
    non-empty [--test], and with [--resume] whenever the arguments
    [get_upstream_args] returns say so.  The run is the loading of the
    arguments, the seeding, and [NotImplementedError]: it always ends in an
    error, which is [NotImplementedError] when the loading and the seeding
    return and the error of the failing call otherwise; every call reads the
    settings or seeds a generator, so nothing is imported, no model, runner
    or dataloader is built and nothing is written. *)
Theorem apc_test_unimplemented (h : env) (c : cli_args) :
  flags_test c Apc ∨ resolved_test h c "apc" →
  run h [] (main c) =
    match run h [] (get_upstream_args c) with
    | (t0, Ok (args, _)) =>
        match run h t0 (fix_seed args) with
        | (ts, Ok _) => (ts, Raise NotImplementedError)
        | (ts, Raise y) => (ts, Raise y)
        end
    | (t0, Raise y) => (t0, Raise y)
    end ∧
  (∃ x, (run h [] (main c)).2 = Raise x) ∧
  Forall (λ en, reads_settings (entry_event en) = true ∨
                is_seed_call (entry_event en) = true) (run h [] (main c)).1 ∧
  Forall (λ en, harmless (entry_event en)) (run h [] (main c)).1.
Proof.
  intros Hsel.
  pose proof (settings_log h c) as Hread.
  assert (∀ t, Forall (λ en, reads_settings (entry_event en) = true ∨
                             is_seed_call (entry_event en) = true) t →
               Forall (λ en, harmless (entry_event en)) t) as Hharm.
  { intros t Ht. eapply Forall_impl; [exact Ht|]. intros en [Hen|Hen].
    - by apply reads_settings_harmless.
    - by apply seed_call_harmless. }
  destruct (run h [] (get_upstream_args c)) as [t0 [[args config]|y]] eqn:Hargs.
  - destruct (selected_test h c Apc t0 args config Hsel Hargs)
      as (v & Hrun & Htest & Hv).
    rewrite (run_main h c t0 args config Hargs).
    rewrite (dispatch_apc_test args config v Hrun Htest Hv).
    destruct (all_calls_run _ _ h t0 (fix_seed_calls args))
      as (t1 & Ht1 & Hseed).
    assert (Forall (λ en, reads_settings (entry_event en) = true ∨
                          is_seed_call (entry_event en) = true) (t0 ++ t1))
      as Hall.
    { apply Forall_app. split; (eapply Forall_impl; [eassumption|]);
        intros; auto. }
    destruct (run h t0 (fix_seed args)) as [ts [[]|y]]; simpl in Ht1; subst ts.
    + rewrite run_throw. split; [done|]. split; [by eexists|].
      split; [done|by apply Hharm].
    + split; [done|]. split; [by eexists|]. split; [done|by apply Hharm].
  - rewrite (main_load_fails h c t0 y Hargs). simpl in Hread.
    assert (Forall (λ en, reads_settings (entry_event en) = true ∨
                          is_seed_call (entry_event en) = true) t0) as Hall.
    { eapply Forall_impl; [exact Hread|]. intros; auto. }
    split; [done|]. split; [by eexists|]. split; [done|by apply Hharm].
Qed.

Lemma apc_test_unimplemented_witness :
  run sample_env [] (main sample_cli_train_apc) =
    match run sample_env [] (get_upstream_args sample_cli_train_apc) with
    | (t0, Ok (args, _)) =>
        match run sample_env t0 (fix_seed args) with
        | (ts, Ok _) => (ts, Raise NotImplementedError)
        | (ts, Raise y) => (ts, Raise y)
        end
    | (t0, Raise y) => (t0, Raise y)
    end ∧
  (∃ x, (run sample_env [] (main sample_cli_train_apc)).2 = Raise x) ∧
  Forall (λ en, reads_settings (entry_event en) = true ∨
                is_seed_call (entry_event en) = true)
    (run sample_env [] (main sample_cli_train_apc)).1 ∧
  Forall (λ en, harmless (entry_event en))
    (run sample_env [] (main sample_cli_train_apc)).1.
Proof.
  apply (apc_test_unimplemented sample_env sample_cli_train_apc).
  left. split; [reflexivity|]. split; [reflexivity|]. discriminate.
Defined.

(** C6 read on the flags alone does not hold.  With [--resume] the
    stored arguments win: [--resume exp --run apc --test x] on a checkpoint
    that stores [run='transformer'] and [test=''] enters [run_transformer],
    imports the runner module, creates the checkpoint directory and ends in
    an [AttributeError].  Without [--resume], a seed numpy refuses ends the
    run in that error, not in [NotImplementedError]. *)
Lemma apc_test_unimplemented_counterexample :
  (cli_run sample_cli_resume = Some Apc ∧
   cli_test sample_cli_resume = "x" ∧
   (run sample_env [] (main sample_cli_resume)).2
     = Raise (AttributeError "split") ∧
   existsb (λ en, loads_model (entry_event en))
     (run sample_env [] (main sample_cli_resume)).1 = true ∧
   existsb (λ en, writes_fs (entry_event en))
     (run sample_env [] (main sample_cli_resume)).1 = true) ∧
  (flags_test sample_cli_bad_seed Apc ∧
   (run strict_seed_env [] (main sample_cli_bad_seed)).2
     = Raise (External "ValueError")).
Proof.
  split.
  - repeat split; reflexivity.
  - split; [|reflexivity].
    split; [reflexivity|]. split; [reflexivity|]. discriminate.
Qed.

(** C9: [main] on arguments that select [transformer] with a non-empty
    test path: on every command line without [--resume] that gives
    [--run transformer] and a non-empty [--test], and with [--resume]
    whenever the arguments [get_upstream_args] returns say so.  After the
    loading of the arguments and the seeding the run continues as
    [test_transformer] on [config['transformer']['input_dim']]: calls that
    read the settings, then seeding, the import of the model module, the
    [TRANSFORMER] constructor and a print only.  No call of the whole run
    builds a dataloader, constructs a runner, creates a directory or copies
    a file. *)
Theorem transformer_test_read_only (h : env) (c : cli_args) :
  flags_test c Transformer ∨ resolved_test h c "transformer" →
  run h [] (main c) =
    match run h [] (get_upstream_args c) with
    | (t0, Ok (args, config)) =>
        match run h t0 (fix_seed args) with
        | (ts, Ok _) =>
            run h ts
              (tr ← lift (py_getitem config "transformer");
               input_dim ← lift (py_getitem tr "input_dim");
               _ ← test_transformer args input_dim;
               Ret tt)
        | (ts, Raise y) => (ts, Raise y)
        end
    | (t0, Raise y) => (t0, Raise y)
    end ∧
  (∃ t1,
     (run h [] (main c)).1 = (run h [] (get_upstream_args c)).1 ++ t1 ∧
     Forall (λ en, reads_settings (entry_event en) = true)
       (run h [] (get_upstream_args c)).1 ∧
     Forall (λ en, is_seed_call (entry_event en) = true ∨
                   is_test_call (entry_event en) = true) t1) ∧
  Forall (λ en, writes_fs (entry_event en) = false ∧
                builds_dataloader (entry_event en) = false ∧
                is_runner_call (entry_event en) = false)
    (run h [] (main c)).1.
Proof.
  intros Hsel.
  pose proof (settings_log h c) as Hread.
  assert (∀ t0 t1 : list entry,
    Forall (λ en, reads_settings (entry_event en) = true) t0 →
    Forall (λ en, is_seed_call (entry_event en) = true ∨
                  is_test_call (entry_event en) = true) t1 →
    Forall (λ en, writes_fs (entry_event en) = false ∧
                  builds_dataloader (entry_event en) = false ∧
                  is_runner_call (entry_event en) = false) (t0 ++ t1)) as Hfs.
  { intros t0 t1 H0 H1. apply Forall_app. split.
    - eapply Forall_impl; [exact H0|]. intros en Hen.
      by destruct (reads_settings_harmless _ Hen) as (_ & ? & ? & ?).
    - eapply Forall_impl; [exact H1|]. intros en [Hen|Hen].
      + by destruct (seed_call_harmless _ Hen) as (_ & ? & ? & ?).
      + by destruct (test_call_harmless _ Hen) as (? & ? & ?). }
  destruct (run h [] (get_upstream_args c)) as [t0 [[args config]|y]] eqn:Hargs;
    simpl in Hread.
  - destruct (selected_test h c Transformer t0 args config Hsel Hargs)
      as (v & Hrun & Htest & Hv).
    rewrite (run_main h c t0 args config Hargs).
    destruct (all_calls_run _ _ h t0 (fix_seed_calls args))
      as (t1 & Ht1 & Hseed).
    destruct (run h t0 (fix_seed args)) as [ts [[]|y]]; simpl in Ht1; subst ts.
    + destruct (all_calls_run _ _ h (t0 ++ t1)
                  (dispatch_test_calls args config v Hrun Htest Hv))
        as (t2 & Ht2 & Htest2).
      rewrite (dispatch_transformer_test args config v Hrun Htest Hv)
        in Ht2 |- *.
      assert (Forall (λ en, is_seed_call (entry_event en) = true ∨
                            is_test_call (entry_event en) = true) (t1 ++ t2))
        as Hall.
      { apply Forall_app. split; (eapply Forall_impl; [eassumption|]);
          intros; auto. }
      split; [done|]. rewrite Ht2, <- app_assoc. simpl.
      split; [by exists (t1 ++ t2)|]. by apply Hfs.
    + assert (Forall (λ en, is_seed_call (entry_event en) = true ∨
                            is_test_call (entry_event en) = true) t1) as Hall.
      { eapply Forall_impl; [exact Hseed|]. intros; auto. }
      split; [done|]. simpl. split; [by exists t1|]. by apply Hfs.
  - rewrite (main_load_fails h c t0 y Hargs). simpl.
    split; [done|]. split.
    + exists []. by rewrite app_nil_r.
    + rewrite <- (app_nil_r t0). by apply Hfs.
Qed.

Lemma transformer_test_read_only_witness :
  run sample_env [] (main sample_cli_test) =
    match run sample_env [] (get_upstream_args sample_cli_test) with
    | (t0, Ok (args, config)) =>
        match run sample_env t0 (fix_seed args) with
        | (ts, Ok _) =>
            run sample_env ts
              (tr ← lift (py_getitem config "transformer");
               input_dim ← lift (py_getitem tr "input_dim");
               _ ← test_transformer args input_dim;
               Ret tt)
        | (ts, Raise y) => (ts, Raise y)
        end
    | (t0, Raise y) => (t0, Raise y)
    end ∧
  (∃ t1,
     (run sample_env [] (main sample_cli_test)).1
       = (run sample_env [] (get_upstream_args sample_cli_test)).1 ++ t1 ∧
     Forall (λ en, reads_settings (entry_event en) = true)
       (run sample_env [] (get_upstream_args sample_cli_test)).1 ∧
     Forall (λ en, is_seed_call (entry_event en) = true ∨
                   is_test_call (entry_event en) = true) t1) ∧
  Forall (λ en, writes_fs (entry_event en) = false ∧
                builds_dataloader (entry_event en) = false ∧
                is_runner_call (entry_event en) = false)
    (run sample_env [] (main sample_cli_test)).1.
Proof.
  apply (transformer_test_read_only sample_env sample_cli_test).
  left. split; [reflexivity|]. split; [reflexivity|]. discriminate.
Defined.

(** C9 read on the flags alone does not hold.  With
    [--resume exp --run transformer --test t.ckpt] on a checkpoint that
    stores [test=''], the stored value wins and the run is a training run:
    it creates the checkpoint directory, copies the config, builds the
    dataloader and the runner and trains, and no model is loaded for a
    test. *)
Lemma transformer_test_read_only_counterexample :
  cli_run sample_cli_resume_test = Some Transformer ∧
  cli_test sample_cli_resume_test = "t.ckpt" ∧
  (run train_env [] (main sample_cli_resume_test)).2 = Ok tt ∧
  existsb (λ en, writes_fs (entry_event en))
    (run train_env [] (main sample_cli_resume_test)).1 = true ∧
  existsb (λ en, builds_dataloader (entry_event en))
    (run train_env [] (main sample_cli_resume_test)).1 = true ∧
  existsb (λ en, is_runner_call (entry_event en))
    (run train_env [] (main sample_cli_resume_test)).1 = true ∧
  existsb (λ en, match entry_event en with
                 | ETransformer _ _ => true
                 | _ => false
                 end)
    (run train_env [] (main sample_cli_resume_test)).1 = false.
Proof. repeat split; reflexivity. Qed.

(** * Further properties *)

Arguments path_join : simpl never.
Arguments prefixb : simpl never.

Lemma path_join_relative a b :
  prefixb "/" b = false → prefixb "/" (String.rev a) = true →
  path_join a b = (a ++ b)%string.
Proof. intros Hb Ha. unfold path_join. by rewrite Hb, Ha, orb_true_r. Qed.

Lemma path_join_absolute a b : prefixb "/" b = true → path_join a b = b.
Proof. intros Hb. unfold path_join. by rewrite Hb. Qed.

(** ** Arguments without a checkpoint *)

(** X1: without [--resume], the returned arguments are the parsed ones with
    one field added, [gpu], the negation of [--cpu]; no parsed field is
    changed. *)
Theorem fresh_arguments_add_gpu (h : env) (c : cli_args) (t0 : list entry)
    (args : gmap string pyval) (config : pyval) :
  cli_resume c = None →
  run h [] (get_upstream_args c) = (t0, Ok (args, config)) →
  args !! "gpu" = Some (VBool (negb (cli_cpu c))) ∧
  vars_of_cli c !! "gpu" = None ∧
  (∀ k, k ≠ "gpu" → args !! k = vars_of_cli c !! k).
Proof.
  intros Hc Hrun.
  destruct (get_upstream_args_fresh h c t0 args config Hc Hrun) as (-> & _).
  unfold setattr. split; [apply lookup_insert_eq|]. split; [done|].
  intros k Hk. by apply lookup_insert_ne.
Qed.

Lemma fresh_arguments_add_gpu_witness :
  setattr (vars_of_cli sample_cli_test) "gpu" (VBool true) !! "gpu"
    = Some (VBool (negb (cli_cpu sample_cli_test))) ∧
  vars_of_cli sample_cli_test !! "gpu" = None ∧
  (∀ k, k ≠ "gpu" →
     setattr (vars_of_cli sample_cli_test) "gpu" (VBool true) !! k
     = vars_of_cli sample_cli_test !! k).
Proof.
  apply (fresh_arguments_add_gpu sample_env sample_cli_test
           (run sample_env [] (get_upstream_args sample_cli_test)).1
           _ sample_config).
  - reflexivity.
  - reflexivity.
Defined.

(** X2: without [--resume] and with [--online_config], a normal return means
    five calls were made, in this order: the config is opened and loaded,
    [parse_prune_heads] is applied to it, and only then the online config is
    opened and loaded.  What [parse_prune_heads] left is a dict, the returned
    config is that dict with the loaded online config under [online], and
    ['online' in config] holds. *)
Theorem online_config_attached (h : env) (c : cli_args) (t0 : list entry)
    (args : gmap string pyval) (config : pyval) (oc : string) :
  cli_resume c = None →
  cli_online_config c = Some oc →
  run h [] (get_upstream_args c) = (t0, Ok (args, config)) →
  ∃ f1 raw d f2 online,
    t0 = [Entry (EOpen (opt_str (cli_config c))) (Ok f1);
          Entry (EYamlLoad f1) (Ok raw);
          Entry (EParsePruneHeads raw) (Ok (VDict d));
          Entry (EOpen (VStr oc)) (Ok f2);
          Entry (EYamlLoad f2) (Ok online)] ∧
    config = VDict (<["online" := online]> d) ∧
    py_in "online" config = Ok true.
Proof.
  intros Hc Hoc. unfold get_upstream_args. rewrite Hc.
  change (getattr (vars_of_cli c) "cpu") with (Ok (VBool (cli_cpu c)) : result pyval).
  rewrite run_lift_bind. cbv beta iota.
  change (getattr (setattr (vars_of_cli c) "gpu"
                     (VBool (negb (py_bool (VBool (cli_cpu c)))))) "config")
    with (Ok (opt_str (cli_config c)) : result pyval).
  change (getattr (setattr (vars_of_cli c) "gpu"
                     (VBool (negb (py_bool (VBool (cli_cpu c)))))) "online_config")
    with (Ok (opt_str (cli_online_config c)) : result pyval).
  rewrite Hoc. simpl opt_str at 2. simpl py_is_none. simpl negb.
  repeat (run_step; try discriminate).
  all: intros [= <- <- <-].
  all: match goal with H : py_setitem ?v _ _ = Ok _ |- _ =>
         destruct v; try discriminate H; injection H as <- end.
  all: eexists _, _, _, _, _; split; [reflexivity|]; split; [reflexivity|].
  all: simpl; rewrite bool_decide_true; [done|].
  all: rewrite lookup_insert_eq; by eexists.
Qed.

Lemma online_config_attached_witness :
  ∃ f1 raw d f2 online,
    (run sample_env [] (get_upstream_args sample_cli_train)).1 =
      [Entry (EOpen (opt_str (cli_config sample_cli_train))) (Ok f1);
       Entry (EYamlLoad f1) (Ok raw);
       Entry (EParsePruneHeads raw) (Ok (VDict d));
       Entry (EOpen (VStr "config/online.yaml")) (Ok f2);
       Entry (EYamlLoad f2) (Ok online)] ∧
    VDict (<["online" := sample_config]> sample_sections)
      = VDict (<["online" := online]> d) ∧
    py_in "online" (VDict (<["online" := sample_config]> sample_sections))
      = Ok true.
Proof.
  apply (online_config_attached sample_env sample_cli_train _
           (setattr (vars_of_cli sample_cli_train) "gpu" (VBool true))).
  - reflexivity.
  - reflexivity.
  - reflexivity.
Defined.

(** ** Checkpoint names *)

Lemma py_last_split_ok sep s : ∃ x, py_last (py_split sep s) = Ok x.
Proof.
  unfold py_last. pose proof (py_split_nonnil sep s) as Hne.
  destruct (py_split sep s) as [|y l] using rev_ind; [done|].
  rewrite last_snoc. by eexists.
Qed.

Lemma py_head_split_ok sep s : ∃ x, py_head (py_split sep s) = Ok x.
Proof.
  pose proof (py_split_nonnil sep s) as Hne.
  destruct (py_split sep s); [done|]. by eexists.
Qed.

Lemma py_int_raises s x : py_int s = Raise x → x = ValueError.
Proof.
  unfold py_int.
  destruct (match strip s with
            | String "-" r => option_map Z.opp (int_digits 0 false r)
            | String "+" r => int_digits 0 false r
            | r => int_digits 0 false r
            end); [done|]. by intros [= <-].
Qed.

Lemma ckpt_step_only_value_error_aux (pth : string) :
  ∃ stem, ckpt_stem pth = Ok stem ∧ ckpt_step pth = py_int stem.
Proof.
  unfold ckpt_stem, ckpt_step.
  destruct (py_last_split_ok "-" pth) as [tail ->]. simpl.
  destruct (py_head_split_ok "." tail) as [stem Hstem].
  exists stem.
  change (py_head (py_split "." tail) = Ok stem ∧
          py_head (py_split "." tail) ≫= py_int = py_int stem).
  by rewrite Hstem.
Qed.

Lemma ckpt_step_raises pth x : ckpt_step pth = Raise x → x = ValueError.
Proof.
  destruct (ckpt_step_only_value_error_aux pth) as (stem & _ & ->).
  apply py_int_raises.
Qed.

(** X3: the sort key of line 74 never fails on the indexing: [split] always
    yields a piece, so [[-1]] and [[0]] succeed, a stem is always handed to
    [int], and the only error the key can raise is [ValueError]. *)
Theorem ckpt_step_only_value_error (pth : string) :
  (∃ stem, ckpt_stem pth = Ok stem ∧ ckpt_step pth = py_int stem) ∧
  (∀ x, ckpt_step pth = Raise x → x = ValueError).
Proof.
  split; [apply ckpt_step_only_value_error_aux|]. intros x. apply ckpt_step_raises.
Qed.

Lemma is_letter_plain c :
  is_letter c || Ascii.eqb c "/" = true →
  is_space c = false ∧ is_digit c = false ∧ Ascii.eqb c "_" = false ∧
  c ≠ "-"%char ∧ c ≠ "+"%char.
Proof.
  destruct c as [[] [] [] [] [] [] [] []]; vm_compute; intros; try discriminate;
    repeat split; discriminate.
Qed.

Lemma has_letter_lstrip s :
  has_letter_or_slash s = true → has_letter_or_slash (lstrip s) = true.
Proof.
  induction s as [|c s IH]; [done|]. intros H.
  change (lstrip (String c s)) with (if is_space c then lstrip s else String c s).
  destruct (is_space c) eqn:Hsp; [|done].
  apply IH. simpl in H.
  destruct (is_letter c || Ascii.eqb c "/") eqn:Hc; [|done].
  destruct (is_letter_plain c Hc) as (Hn & _). congruence.
Qed.

Lemma has_letter_rev_app a b :
  has_letter_or_slash (String.rev_app a b)
  = has_letter_or_slash a || has_letter_or_slash b.
Proof.
  revert b. induction a as [|c a IH]; intros b; [done|].
  change (String.rev_app (String c a) b) with (String.rev_app a (String c b)).
  rewrite IH. simpl.
  destruct (is_letter c || Ascii.eqb c "/"), (has_letter_or_slash a); done.
Qed.

Lemma has_letter_strip s :
  has_letter_or_slash s = true → has_letter_or_slash (strip s) = true.
Proof.
  intros H. unfold strip, String.rev.
  rewrite has_letter_rev_app, orb_false_r. apply has_letter_lstrip.
  rewrite has_letter_rev_app, orb_false_r. by apply has_letter_lstrip.
Qed.

Lemma int_digits_letter acc seen s :
  has_letter_or_slash s = true → int_digits acc seen s = None.
Proof.
  revert acc seen. induction s as [|c s IH]; intros acc seen; [done|].
  intros H. simpl in H. simpl.
  destruct (is_letter c || Ascii.eqb c "/") eqn:Hc.
  - destruct (is_letter_plain c Hc) as (_ & -> & -> & _). done.
  - simpl in H. destruct (is_digit c); [by apply IH|].
    destruct (Ascii.eqb c "_"); [|done]. destruct seen; [by apply IH|done].
Qed.

(** [int] rejects every string that holds a letter or a slash. *)
Lemma py_int_letter s :
  has_letter_or_slash s = true → py_int s = Raise ValueError.
Proof.
  intros H%has_letter_strip. unfold py_int.
  destruct (strip s) as [|c r]; [done|].
  assert (int_digits 0 false (String c r) = None) as Hall
    by (by apply int_digits_letter).
  simpl in H.
  destruct (is_letter c || Ascii.eqb c "/") eqn:Hc.
  - destruct (is_letter_plain c Hc) as (_ & _ & _ & Hm & Hp).
    destruct c as [[] [] [] [] [] [] [] []]; try done; by rewrite Hall.
  - simpl in H. pose proof (int_digits_letter 0 false r H) as Hr.
    destruct c as [[] [] [] [] [] [] [] []]; rewrite ?Hr, ?Hall; done.
Qed.

Lemma keyed_raises {A} (key : A → result Z) (l : list A) (p : A) :
  p ∈ l → key p = Raise ValueError →
  (∀ q x, key q = Raise x → x = ValueError) →
  keyed key l = Raise ValueError.
Proof.
  intros Hp Hkey Honly. induction l as [|q l IH]; [by apply elem_of_nil in Hp|].
  simpl. destruct (key q) as [n|x] eqn:Hq.
  - simpl. apply elem_of_cons in Hp as [->|Hp]; [congruence|].
    by rewrite (IH Hp).
  - simpl. by rewrite (Honly q x Hq).
Qed.

(** X4: one checkpoint file whose stem holds a letter or a slash (such as
    [best.ckpt] beside the numbered ones) is enough to make the resume from
    a directory fail: [get_upstream_args] raises [ValueError] right after
    the listing, and no checkpoint is loaded. *)
Theorem resume_dir_bad_name_fails (h : env) (c : cli_args) (resume : string)
    (ckpts : list string) (p stem : string) :
  cli_resume c = Some resume →
  h [] (EIsDir resume) = Ok true →
  h [Entry (EIsDir resume) (Ok true)] (EGlob (resume ++ "/*.ckpt")%string)
    = Ok ckpts →
  p ∈ ckpts →
  ckpt_stem p = Ok stem →
  has_letter_or_slash stem = true →
  run h [] (get_upstream_args c) =
  ([Entry (EIsDir resume) (Ok true);
    Entry (EGlob (resume ++ "/*.ckpt")%string) (Ok ckpts)],
   Raise ValueError).
Proof.
  intros Hc Hd Hg Hp Hstem Hbad. unfold get_upstream_args.
  rewrite Hc, run_bind, (run_resolve_resume_dir h [] resume ckpts Hd Hg).
  assert (ckpt_step p = Raise ValueError) as Hkey.
  { destruct (ckpt_step_only_value_error_aux p) as (stem0 & Hs0 & ->).
    rewrite Hstem in Hs0. injection Hs0 as <-. by apply py_int_letter. }
  destruct ckpts as [|q l]; [by apply elem_of_nil in Hp|].
  change (0 <? Z.of_nat (length (q :: l))) with true. cbv iota.
  unfold py_sorted.
  rewrite (keyed_raises ckpt_step (q :: l) p Hp Hkey); [done|].
  intros q0 x. apply ckpt_step_raises.
Qed.

Lemma resume_dir_bad_name_fails_witness :
  run unnumbered_env [] (get_upstream_args sample_cli_resume) =
  ([Entry (EIsDir "exp") (Ok true);
    Entry (EGlob ("exp" ++ "/*.ckpt")%string)
      (Ok ["exp/states-10.ckpt"; "exp/best.ckpt"])],
   Raise ValueError).
Proof.
  apply (resume_dir_bad_name_fails unnumbered_env sample_cli_resume "exp"
           ["exp/states-10.ckpt"; "exp/best.ckpt"] "exp/best.ckpt" "exp/best").
  - reflexivity.
  - reflexivity.
  - reflexivity.
  - apply elem_of_cons. right. apply elem_of_cons. by left.
  - reflexivity.
  - reflexivity.
Defined.

(** X5: when no two checkpoint files of the directory share a step, the
    file the resume picks does not depend on the order in which [glob]
    lists the directory. *)
Theorem resume_choice_order_independent (h h' : env) (resume : string)
    (ckpts ckpts' : list string) :
  h [] (EIsDir resume) = Ok true →
  h' [] (EIsDir resume) = Ok true →
  h [Entry (EIsDir resume) (Ok true)] (EGlob (resume ++ "/*.ckpt")%string)
    = Ok ckpts →
  h' [Entry (EIsDir resume) (Ok true)] (EGlob (resume ++ "/*.ckpt")%string)
    = Ok ckpts' →
  ckpts ≡ₚ ckpts' →
  (∀ p, p ∈ ckpts → ∃ n, step_named p n) →
  (∀ p q n, p ∈ ckpts → q ∈ ckpts → step_named p n → step_named q n → p = q) →
  (run h [] (resolve_resume resume)).2 = (run h' [] (resolve_resume resume)).2.
Proof.
  intros Hd Hd' Hg Hg' Hperm Hall Hinj.
  rewrite (run_resolve_resume_dir h [] resume ckpts Hd Hg).
  rewrite (run_resolve_resume_dir h' [] resume ckpts' Hd' Hg'). simpl.
  rewrite <- (Permutation_length Hperm).
  destruct (decide (ckpts = [])) as [->|Hne]; [done|].
  assert ((0 <? Z.of_nat (length ckpts)) = true) as Hpos.
  { destruct ckpts; [done|]. apply Z.ltb_lt. simpl. lia. }
  rewrite Hpos.
  assert (ckpts' ≠ []) as Hne'.
  { intros ->. apply Permutation_nil_r in Hperm. done. }
  assert (∀ p, p ∈ ckpts' → ∃ n, step_named p n) as Hall'.
  { intros p Hp. apply Hall. by rewrite Hperm. }
  destruct (sorted_last_step ckpts Hne Hall)
    as (s1 & sel & m & b1 & a1 & Hso1 & Hl1 & Hs1 & Hm & Hb1 & Ha1).
  destruct (sorted_last_step ckpts' Hne' Hall')
    as (s2 & sel' & m' & b2 & a2 & Hso2 & Hl2 & Hs2 & Hm' & Hb2 & Ha2).
  rewrite Hso1, Hso2. simpl. rewrite Hl1, Hl2. f_equal.
  assert (sel ∈ ckpts) as Hsel.
  { rewrite Hs1. apply elem_of_app. right. left. }
  assert (sel' ∈ ckpts) as Hsel'.
  { rewrite Hperm, Hs2. apply elem_of_app. right. left. }
  assert (m' ≤ m) as Hle.
  { rewrite Hs1 in Hsel'.
    apply elem_of_app in Hsel' as [Hin|[->|Hin]%elem_of_cons].
    - by apply (Hb1 sel').
    - apply ckpt_step_named in Hm, Hm'. rewrite Hm in Hm'.
      injection Hm' as ->. lia.
    - specialize (Ha1 sel' m' Hin Hm'). lia. }
  assert (m ≤ m') as Hge.
  { assert (sel ∈ ckpts') as Hin by (by rewrite <- Hperm).
    rewrite Hs2 in Hin.
    apply elem_of_app in Hin as [Hin|[->|Hin]%elem_of_cons].
    - by apply (Hb2 sel).
    - apply ckpt_step_named in Hm, Hm'. rewrite Hm in Hm'.
      injection Hm' as ->. lia.
    - specialize (Ha2 sel m Hin Hm). lia. }
  assert (m = m') as -> by lia.
  by apply (Hinj sel sel' m').
Qed.

Lemma resume_choice_order_independent_witness :
  (run sample_env [] (resolve_resume "exp")).2
  = (run reversed_env [] (resolve_resume "exp")).2.
Proof.
  apply (resume_choice_order_independent sample_env reversed_env "exp"
           ["exp/states-9.ckpt"; "exp/states-10.ckpt"]
           ["exp/states-10.ckpt"; "exp/states-9.ckpt"]).
  - reflexivity.
  - reflexivity.
  - reflexivity.
  - reflexivity.
  - apply perm_swap.
  - intros p Hp. apply elem_of_cons in Hp as [->|Hp].
    + exists 9, "exp/states", "9", "ckpt". repeat split. discriminate.
    + apply elem_of_cons in Hp as [->|Hp].
      * exists 10, "exp/states", "10", "ckpt". repeat split. discriminate.
      * by apply elem_of_nil in Hp.
  - intros p q n Hp Hq Hpn Hqn.
    apply ckpt_step_named in Hpn, Hqn.
    apply elem_of_cons in Hp as [->|Hp]; apply elem_of_cons in Hq as [->|Hq];
      try done;
      repeat match goal with
      | H : _ ∈ [_] |- _ => apply list_elem_of_singleton in H; subst
      end;
      try done; vm_compute in Hpn, Hqn; congruence.
Defined.

(** ** Checkpoint directory, the other ways *)

Ltac setup_facts :=
  unfold getattr, setattr in *;
  repeat match goal with
  | H : context [<[_:=_]> _ !! _] |- _ =>
      first [rewrite lookup_insert_eq in H
            | rewrite lookup_insert_ne in H by done]
  end;
  repeat match goal with
  | H : context [py_last (py_split "/" _)] |- _ =>
      rewrite py_last_split_basename in H
  end.

Ltac setup_bools :=
  repeat match goal with
  | H : negb _ = true |- _ => apply negb_true_iff in H
  | H : negb _ = false |- _ => apply negb_false_iff in H
  end; subst;
  repeat match goal with
  | H : py_split_attr ?v = Ok _ |- _ =>
      destruct v; try discriminate H; injection H as <-
  | H : py_as_str ?v = Ok _ |- _ =>
      destruct v; try discriminate H; injection H as <-
  | H : py_is_none ?v = true |- _ =>
      destruct v; try discriminate H; clear H
  | u : unit |- _ => destruct u
  end.

(** X6: with a non-empty [--ckpdir], the setup block that completes has
    drawn no random number and changed no argument; the directory is the
    given one, tested for existence, created when absent, and the config
    files are copied into it under their base names. *)
Theorem explicit_checkpoint_directory (h : env) (t : list entry)
    (args args' : gmap string pyval) (ckpdir : pyval) (d cfg : string) :
  args !! "ckpdir" = Some (VStr d) →
  d ≠ "" →
  args !! "config" = Some (VStr cfg) →
  (run h t (run_transformer_setup args)).2 = Ok (args', ckpdir) →
  ∃ found : bool,
    args' = args ∧ ckpdir = VStr d ∧
    (run h t (run_transformer_setup args)).1 =
      t ++ [Entry (EImport "transformer.runner") (Ok tt);
            Entry (EExists (VStr d)) (Ok found)]
        ++ (if found then [] else [Entry (EMakedirs (VStr d)) (Ok tt)])
        ++ [Entry (ECopyfile cfg (path_join d (basename cfg))) (Ok tt)]
        ++ match args !! "online_config" with
           | Some (VStr oc) =>
               [Entry (ECopyfile oc (path_join d (basename oc))) (Ok tt)]
           | _ => []
           end.
Proof.
  intros Hck Hd Hcfg.
  unfold run_transformer_setup.
  rewrite (getattr_lookup _ _ _ Hck).
  assert (py_eq_str (VStr d) "" = false) as Hne
    by (simpl; by apply String.eqb_neq).
  repeat (run_step; try (simpl; discriminate); try congruence).
  all: simpl; intros [= <- <-].
  all: setup_facts.
  all: repeat match goal with
       | H : match _ !! "config" with _ => _ end = _ |- _ => rewrite Hcfg in H
       end.
  all: destruct (args !! "online_config") as [oc|] eqn:Hoc; simplify_eq/=.
  all: setup_bools.
  all: match goal with
       | H : _ _ (EExists _) = Ok ?b |- _ => exists b
       end.
  all: split; [done|]; split; [done|].
  all: rewrite <- ?app_assoc; reflexivity.
Qed.

Lemma explicit_checkpoint_directory_witness :
  ∃ found : bool,
    <["ckpdir" := VStr "out/run1"]>
      (setattr (vars_of_cli sample_cli_train) "gpu" (VBool true))
    = <["ckpdir" := VStr "out/run1"]>
        (setattr (vars_of_cli sample_cli_train) "gpu" (VBool true)) ∧
    VStr "out/run1" = VStr "out/run1" ∧
    (run sample_env []
       (run_transformer_setup
          (<["ckpdir" := VStr "out/run1"]>
             (setattr (vars_of_cli sample_cli_train) "gpu" (VBool true))))).1 =
      [] ++ [Entry (EImport "transformer.runner") (Ok tt);
             Entry (EExists (VStr "out/run1")) (Ok found)]
        ++ (if found then [] else [Entry (EMakedirs (VStr "out/run1")) (Ok tt)])
        ++ [Entry (ECopyfile "config/tera.yaml"
                     (path_join "out/run1" (basename "config/tera.yaml")))
              (Ok tt)]
        ++ match <["ckpdir" := VStr "out/run1"]>
                   (setattr (vars_of_cli sample_cli_train) "gpu" (VBool true))
                   !! "online_config" with
           | Some (VStr oc) =>
               [Entry (ECopyfile oc (path_join "out/run1" (basename oc)))
                  (Ok tt)]
           | _ => []
           end.
Proof.
  apply (explicit_checkpoint_directory sample_env []
           (<["ckpdir" := VStr "out/run1"]>
              (setattr (vars_of_cli sample_cli_train) "gpu" (VBool true)))
           _ (VStr "out/run1") "out/run1" "config/tera.yaml").
  - reflexivity.
  - discriminate.
  - reflexivity.
  - reflexivity.
Defined.

(** X7: with [--ckpdir] empty and a [--name], the setup block that
    completes has drawn no random number and changed no argument; the
    directory is [os.path.join('result/result_transformer/', name)], which
    is the name appended to that prefix, unless the name starts with a
    slash: then the directory is the name itself, outside the result
    tree. *)
Theorem named_checkpoint_directory (h : env) (t : list entry)
    (args args' : gmap string pyval) (ckpdir : pyval) (name cfg : string) :
  args !! "ckpdir" = Some (VStr "") →
  args !! "name" = Some (VStr name) →
  args !! "config" = Some (VStr cfg) →
  (run h t (run_transformer_setup args)).2 = Ok (args', ckpdir) →
  ∃ (found : bool) (d : string),
    args' = args ∧ ckpdir = VStr d ∧
    (prefixb "/" name = false →
       d = ("result/result_transformer/" ++ name)%string) ∧
    (prefixb "/" name = true → d = name) ∧
    (run h t (run_transformer_setup args)).1 =
      t ++ [Entry (EImport "transformer.runner") (Ok tt);
            Entry (EExists (VStr d)) (Ok found)]
        ++ (if found then [] else [Entry (EMakedirs (VStr d)) (Ok tt)])
        ++ [Entry (ECopyfile cfg (path_join d (basename cfg))) (Ok tt)]
        ++ match args !! "online_config" with
           | Some (VStr oc) =>
               [Entry (ECopyfile oc (path_join d (basename oc))) (Ok tt)]
           | _ => []
           end.
Proof.
  intros Hck Hname Hcfg.
  unfold run_transformer_setup.
  rewrite (getattr_lookup _ _ _ Hck).
  rewrite (getattr_lookup _ _ _ Hname).
  repeat (run_step; try (simpl; discriminate)).
  all: simpl; intros [= <- <-].
  all: setup_facts.
  all: repeat match goal with
       | H : match _ !! "config" with _ => _ end = _ |- _ => rewrite Hcfg in H
       | H : match _ !! "name" with _ => _ end = _ |- _ => rewrite Hname in H
       end.
  all: destruct (args !! "online_config") as [oc|] eqn:Hoc; simplify_eq/=.
  all: setup_bools.
  all: match goal with
       | H : _ _ (EExists (VStr ?d)) = Ok ?b |- _ => exists b, d
       end.
  all: split; [done|]; split; [done|].
  all: split; [intros Hp; by apply path_join_relative|].
  all: split; [intros Hp; by apply path_join_absolute|].
  all: rewrite <- ?app_assoc; reflexivity.
Qed.

Lemma named_checkpoint_directory_witness :
  ∃ (found : bool) (d : string),
    <["name" := VStr "/data/exp1"]>
      (setattr (vars_of_cli sample_cli_train) "gpu" (VBool true))
    = <["name" := VStr "/data/exp1"]>
        (setattr (vars_of_cli sample_cli_train) "gpu" (VBool true)) ∧
    VStr "/data/exp1" = VStr d ∧
    (prefixb "/" "/data/exp1" = false →
       d = ("result/result_transformer/" ++ "/data/exp1")%string) ∧
    (prefixb "/" "/data/exp1" = true → d = "/data/exp1") ∧
    (run sample_env []
       (run_transformer_setup
          (<["name" := VStr "/data/exp1"]>
             (setattr (vars_of_cli sample_cli_train) "gpu" (VBool true))))).1 =
      [] ++ [Entry (EImport "transformer.runner") (Ok tt);
             Entry (EExists (VStr d)) (Ok found)]
        ++ (if found then [] else [Entry (EMakedirs (VStr d)) (Ok tt)])
        ++ [Entry (ECopyfile "config/tera.yaml"
                     (path_join d (basename "config/tera.yaml"))) (Ok tt)]
        ++ match <["name" := VStr "/data/exp1"]>
                   (setattr (vars_of_cli sample_cli_train) "gpu" (VBool true))
                   !! "online_config" with
           | Some (VStr oc) =>
               [Entry (ECopyfile oc (path_join d (basename oc))) (Ok tt)]
           | _ => []
           end.
Proof.
  apply (named_checkpoint_directory sample_env []
           (<["name" := VStr "/data/exp1"]>
              (setattr (vars_of_cli sample_cli_train) "gpu" (VBool true)))
           _ (VStr "/data/exp1") "/data/exp1" "config/tera.yaml").
  - reflexivity.
  - reflexivity.
  - reflexivity.
  - reflexivity.
Defined.

(** X8: whatever the arguments and however the run ends, the setup block
    calls [os.makedirs] only directly after an [os.path.exists] test of the
    same path that answered [False]: an existing directory is never
    created again. *)
Theorem makedirs_only_when_absent (h : env) (t : list entry)
    (args : gmap string pyval) (i : nat) (en : entry) (p : pyval) :
  (run h t (run_transformer_setup args)).1 !! (length t + i)%nat = Some en →
  entry_event en = EMakedirs p →
  ∃ j, i = S j ∧
    (run h t (run_transformer_setup args)).1 !! (length t + j)%nat
      = Some (Entry (EExists p) (Ok false)).
Proof.
  destruct (run_extends h (run_transformer_setup args) t) as [t' Ht'].
  rewrite Ht', !lookup_app_r by lia.
  replace (length t + i - length t)%nat with i by lia.
  intros Hi Hev.
  cut (∃ j, i = S j ∧ t' !! j = Some (Entry (EExists p) (Ok false))).
  { intros (j & -> & Hj). exists j. split; [done|].
    rewrite lookup_app_r by lia.
    by replace (length t + j - length t)%nat with j by lia. }
  revert Ht' i en p Hi Hev.
  unfold run_transformer_setup.
  repeat run_step.
  all: simpl; rewrite <- ?app_assoc; intros Ht'%app_inv_head; subst t'.
  all: setup_bools.
  all: intros i en p Hi Hev.
  all: repeat (destruct i as [|i]; simpl in Hi;
               [injection Hi as <-; simpl in Hev; try discriminate Hev;
                try (injection Hev as <-; eexists; split; reflexivity) | ]).
  all: try (rewrite lookup_nil in Hi; discriminate Hi).
Qed.

Lemma makedirs_only_when_absent_witness :
  ∃ j, 3%nat = S j ∧
    (run sample_env []
       (run_transformer_setup
          (setattr (vars_of_cli sample_cli_train) "gpu" (VBool true)))).1
      !! (length ([] : list entry) + j)%nat
      = Some (Entry (EExists (VStr "result/result_transformer/run_7"))
                (Ok false)).
Proof.
  apply (makedirs_only_when_absent sample_env []
           (setattr (vars_of_cli sample_cli_train) "gpu" (VBool true)) 3
           (Entry (EMakedirs (VStr "result/result_transformer/run_7")) (Ok tt))
           (VStr "result/result_transformer/run_7")).
  - reflexivity.
  - reflexivity.
Defined.

(** How a completed setup block ends, whichever way the directory was
    chosen. *)
Lemma setup_copies (h : env) (t : list entry)
    (args args' : gmap string pyval) (ckpdir : pyval) :
  (run h t (run_transformer_setup args)).2 = Ok (args', ckpdir) →
  ∃ dir cfg pre,
    ckpdir = VStr dir ∧
    args !! "config" = Some (VStr cfg) ∧
    (∀ k, k ≠ "name" → args' !! k = args !! k) ∧
    Forall (λ en, is_copy (entry_event en) = false) pre ∧
    (run h t (run_transformer_setup args)).1 =
      t ++ pre
        ++ [Entry (ECopyfile cfg (path_join dir (basename cfg))) (Ok tt)]
        ++ match args !! "online_config" with
           | Some (VStr oc) =>
               [Entry (ECopyfile oc (path_join dir (basename oc))) (Ok tt)]
           | _ => []
           end.
Proof.
  unfold run_transformer_setup.
  repeat (run_step; try (simpl; discriminate)).
  all: simpl; intros [= <- <-].
  all: setup_facts.
  all: destruct (args !! "config") as [cfgv|] eqn:Hcfg; simplify_eq/=.
  all: destruct (args !! "online_config") as [oc|] eqn:Hoc; simplify_eq/=.
  all: setup_bools.
  all: eexists _, _, _.
  all: split; [reflexivity|]; split; [reflexivity|].
  all: split;
    [intros k Hk; first [reflexivity | by apply lookup_insert_ne]|].
  all: rewrite (app_assoc t).
  all: match goal with
       | |- _ ∧ (?l ++ [Entry (ECopyfile ?a ?b) ?r]) ++ [?c2] = _ =>
           rewrite <- (app_assoc l [Entry (ECopyfile a b) r] [c2])
       | _ => idtac
       end.
  all: split; [|f_equal; rewrite <- ?app_assoc; reflexivity].
  all: simpl; by repeat constructor.
Qed.

(** X9: a setup block that completes, whichever way the directory was
    chosen, has copied the config file to
    [os.path.join(ckpdir, <base name>)] as its last call, or as its last
    but one, followed by the same for the online config when one is given.
    Nothing else is copied, the base names hold no slash, and of the
    arguments only [name] can have changed. *)
Theorem config_copied_under_base_name (h : env) (t : list entry)
    (args args' : gmap string pyval) (ckpdir : pyval) :
  (run h t (run_transformer_setup args)).2 = Ok (args', ckpdir) →
  ∃ dir cfg pre,
    ckpdir = VStr dir ∧
    args !! "config" = Some (VStr cfg) ∧
    (∀ k, k ≠ "name" → args' !! k = args !! k) ∧
    Forall (λ en, is_copy (entry_event en) = false) pre ∧
    occurs "/" (basename cfg) = false ∧
    (∀ oc, occurs "/" (basename oc) = false) ∧
    (run h t (run_transformer_setup args)).1 =
      t ++ pre
        ++ [Entry (ECopyfile cfg (path_join dir (basename cfg))) (Ok tt)]
        ++ match args !! "online_config" with
           | Some (VStr oc) =>
               [Entry (ECopyfile oc (path_join dir (basename oc))) (Ok tt)]
           | _ => []
           end.
Proof.
  intros Hret.
  destruct (setup_copies h t args args' ckpdir Hret)
    as (dir & cfg & pre & Hdir & Hcfg & Hargs & Hpre & Htrace).
  exists dir, cfg, pre. repeat split; try done; try apply occurs_basename.
Qed.

Lemma config_copied_under_base_name_witness :
  ∃ dir cfg pre,
    VStr "result/result_transformer/run_7" = VStr dir ∧
    setattr (vars_of_cli sample_cli_train) "gpu" (VBool true) !! "config"
      = Some (VStr cfg) ∧
    (∀ k, k ≠ "name" →
       <["name" := VStr "run_7"]>
         (setattr (vars_of_cli sample_cli_train) "gpu" (VBool true)) !! k
       = setattr (vars_of_cli sample_cli_train) "gpu" (VBool true) !! k) ∧
    Forall (λ en, is_copy (entry_event en) = false) pre ∧
    occurs "/" (basename cfg) = false ∧
    (∀ oc, occurs "/" (basename oc) = false) ∧
    (run sample_env []
       (run_transformer_setup
          (setattr (vars_of_cli sample_cli_train) "gpu" (VBool true)))).1 =
      [] ++ pre
        ++ [Entry (ECopyfile cfg (path_join dir (basename cfg))) (Ok tt)]
        ++ match setattr (vars_of_cli sample_cli_train) "gpu" (VBool true)
                   !! "online_config" with
           | Some (VStr oc) =>
               [Entry (ECopyfile oc (path_join dir (basename oc))) (Ok tt)]
           | _ => []
           end.
Proof.
  apply (config_copied_under_base_name sample_env []
           (setattr (vars_of_cli sample_cli_train) "gpu" (VBool true))
           (<["name" := VStr "run_7"]>
              (setattr (vars_of_cli sample_cli_train) "gpu" (VBool true)))
           (VStr "result/result_transformer/run_7")).
  reflexivity.
Defined.

(** X10: the copies keep the base name only, so a config and an online
    config with the same base name in different directories are copied to
    one and the same destination, the online config last. *)
Theorem same_base_name_collides (h : env) (t : list entry)
    (args args' : gmap string pyval) (ckpdir : pyval) (cfg oc : string) :
  args !! "config" = Some (VStr cfg) →
  args !! "online_config" = Some (VStr oc) →
  basename cfg = basename oc →
  (run h t (run_transformer_setup args)).2 = Ok (args', ckpdir) →
  ∃ pre dst,
    (run h t (run_transformer_setup args)).1 =
      t ++ pre ++ [Entry (ECopyfile cfg dst) (Ok tt);
                   Entry (ECopyfile oc dst) (Ok tt)].
Proof.
  intros Hcfg Hoc Hbase Hret.
  destruct (setup_copies h t args args' ckpdir Hret)
    as (dir & cfg' & pre & _ & Hcfg' & _ & _ & Htrace).
  rewrite Hcfg in Hcfg'. injection Hcfg' as <-.
  rewrite Hoc, Hbase in Htrace.
  exists pre, (path_join dir (basename oc)). exact Htrace.
Qed.

Lemma same_base_name_collides_witness :
  ∃ pre dst,
    (run sample_env [] (run_transformer_setup sample_args_collide)).1 =
      [] ++ pre ++ [Entry (ECopyfile "a/shared.yaml" dst) (Ok tt);
                    Entry (ECopyfile "b/shared.yaml" dst) (Ok tt)].
Proof.
  apply (same_base_name_collides sample_env [] sample_args_collide
           sample_args_collide (VStr "out")).
  - reflexivity.
  - reflexivity.
  - reflexivity.
  - reflexivity.
Defined.

(** ** Dataloader, errors and arguments *)

(** X11: a config dict without a [dataloader] section, or whose section has
    no [data_path], makes [get_dataloader] raise the [KeyError] of the
    missing key before it calls anything: the log is left as it was. *)
Theorem dataloader_keys_required (h : env) (t : list entry)
    (args : gmap string pyval) (d : gmap string pyval) :
  (d !! "dataloader" = None →
     run h t (get_dataloader args (VDict d)) = (t, Raise (KeyError "dataloader"))) ∧
  (∀ dl, d !! "dataloader" = Some (VDict dl) → dl !! "data_path" = None →
     run h t (get_dataloader args (VDict d)) = (t, Raise (KeyError "data_path"))).
Proof.
  split.
  - intros Hd. unfold get_dataloader. rewrite run_lift_bind. simpl. by rewrite Hd.
  - intros dl Hd Hp. unfold get_dataloader.
    rewrite run_lift_bind. simpl py_getitem. rewrite Hd.
    rewrite run_lift_bind. simpl. by rewrite Hp.
Qed.

Lemma dataloader_keys_required_witness :
  run sample_env [] (get_dataloader ∅ (VDict ∅))
  = ([], Raise (KeyError "dataloader")).
Proof.
  apply (proj1 (dataloader_keys_required sample_env [] ∅ ∅)). reflexivity.
Defined.

Lemma py_kwargs_inv v kw :
  py_kwargs v = Ok kw →
  v = VDict kw ∧ ∀ k, k ∈ explicit_keywords → kw !! k = None.
Proof.
  destruct v; try done. unfold py_kwargs.
  destruct (existsb (λ k, bool_decide (is_Some (d !! k))) explicit_keywords)
    eqn:Hex; [done|].
  intros [= <-]. split; [done|]. intros k Hk.
  destruct (d !! k) eqn:Hdk; [|done].
  assert (existsb (λ k, bool_decide (is_Some (d !! k))) explicit_keywords = true)
    as Hyes.
  { apply existsb_exists. exists k. split; [by apply list_elem_of_In|].
    apply bool_decide_eq_true. by eexists. }
  congruence.
Qed.

Lemma get_dataloader_never args config :
  (∀ use_gpu mam_config dl kwargs,
      getattr args "gpu" = Ok use_gpu →
      py_getitem config "transformer" = Ok mam_config →
      py_getitem config "dataloader" = Ok dl →
      py_kwargs dl = Ok kwargs → False) →
  all_calls (λ e, builds_dataloader e = false) (get_dataloader args config).
Proof.
  intros Hnever. unfold get_dataloader. calls; try done.
  all: exfalso; eapply Hnever; eauto.
Qed.

Lemma get_dataloader_never_returns (h : env) t args config :
  all_calls (λ e, builds_dataloader e = false) (get_dataloader args config) →
  ∃ t' x,
    run h t (get_dataloader args config) = (t ++ t', Raise x) ∧
    Forall (λ en, builds_dataloader (entry_event en) = false) t'.
Proof.
  intros Hcalls.
  destruct (all_calls_run _ _ h t Hcalls) as (t' & Ht' & Hall).
  destruct (run h t (get_dataloader args config)) as [tr [d|x]] eqn:Hrun;
    simpl in Ht'; subst tr.
  - exfalso.
    destruct (get_dataloader_returns h t args config d) as
      (load & gpu & mam & kw & _ & Hlen & Hlast); [by rewrite Hrun|].
    rewrite Hrun in Hlen, Hlast. simpl in Hlen, Hlast.
    destruct t' as [|en t' _] using rev_ind.
    + rewrite app_nil_r in Hlen. lia.
    + rewrite app_assoc, last_snoc in Hlast. injection Hlast as ->.
      apply Forall_app in Hall as [_ Hen]. by inversion Hen.
  - by exists t', x.
Qed.

(** X12: when the [dataloader] section repeats one of the keywords the call
    of line 106 passes by name ([split], [load], [use_gpu], [run_mam],
    [mam_config]), [get_dataloader] raises and the dataloader constructor
    is never called. *)
Theorem repeated_keyword_blocks_dataloader (h : env) (t : list entry)
    (args : gmap string pyval) (config : pyval) (dl : gmap string pyval)
    (k : string) :
  py_getitem config "dataloader" = Ok (VDict dl) →
  k ∈ explicit_keywords →
  is_Some (dl !! k) →
  ∃ t' x,
    run h t (get_dataloader args config) = (t ++ t', Raise x) ∧
    Forall (λ en, builds_dataloader (entry_event en) = false) t'.
Proof.
  intros Hdl Hk [v Hv]. apply get_dataloader_never_returns.
  apply get_dataloader_never. intros gpu mam dl0 kw _ _ Hdl0 Hkw.
  rewrite Hdl in Hdl0. injection Hdl0 as <-.
  apply py_kwargs_inv in Hkw as [[= <-] Hnone].
  rewrite (Hnone k Hk) in Hv. done.
Qed.

(** X13: when [args] has no [gpu] field (the resume branch sets none, so
    this is a checkpoint whose stored arguments lack it), [get_dataloader]
    raises and the dataloader constructor is never called. *)
Theorem missing_gpu_blocks_dataloader (h : env) (t : list entry)
    (args : gmap string pyval) (config : pyval) :
  args !! "gpu" = None →
  ∃ t' x,
    run h t (get_dataloader args config) = (t ++ t', Raise x) ∧
    Forall (λ en, builds_dataloader (entry_event en) = false) t'.
Proof.
  intros Hgpu. apply get_dataloader_never_returns.
  apply get_dataloader_never. intros gpu mam dl0 kw Hg _ _ _.
  unfold getattr in Hg. by rewrite Hgpu in Hg.
Qed.

Lemma repeated_keyword_blocks_dataloader_witness :
  ∃ t' x,
    run sample_env []
      (get_dataloader ∅
         (VDict {[ "dataloader" := VDict {[ "load" := VStr "duo" ]} ]}))
    = ([] ++ t', Raise x) ∧
    Forall (λ en, builds_dataloader (entry_event en) = false) t'.
Proof.
  apply (repeated_keyword_blocks_dataloader sample_env [] ∅
           (VDict {[ "dataloader" := VDict {[ "load" := VStr "duo" ]} ]})
           {[ "load" := VStr "duo" ]} "load").
  - reflexivity.
  - apply elem_of_cons. right. apply elem_of_cons. by left.
  - by eexists.
Defined.

Lemma missing_gpu_blocks_dataloader_witness :
  ∃ t' x,
    run present_env [] (get_dataloader sample_paras_no_gpu sample_config)
    = ([] ++ t', Raise x) ∧
    Forall (λ en, builds_dataloader (entry_event en) = false) t'.
Proof.
  apply (missing_gpu_blocks_dataloader present_env [] sample_paras_no_gpu
           sample_config).
  reflexivity.
Defined.

Lemma getattr_inv args k v : getattr args k = Ok v → args !! k = Some v.
Proof. unfold getattr. destruct (args !! k); by intros [= ->]. Qed.

Lemma py_getitem_dict_inv d k v :
  py_getitem (VDict d) k = Ok v → d !! k = Some v.
Proof. simpl. destruct (d !! k); by intros [= ->]. Qed.

(** X14: when [get_dataloader] returns, the dataloader constructor was its
    last call, for the training split with [run_mam=True]; it received
    [args.gpu] as [use_gpu], the [transformer] section as [mam_config] and
    the whole [dataloader] section, [data_path] included, as the remaining
    keyword arguments, none of which repeats an explicit keyword. *)
Theorem dataloader_constructor_arguments (h : env) (t : list entry)
    (args : gmap string pyval) (config : pyval) (d : obj) :
  (run h t (get_dataloader args config)).2 = Ok d →
  ∃ load use_gpu mam_config kwargs,
    mode_of config load ∧
    args !! "gpu" = Some use_gpu ∧
    py_getitem config "transformer" = Ok mam_config ∧
    py_getitem config "dataloader" = Ok (VDict kwargs) ∧
    (∀ k, k ∈ explicit_keywords → kwargs !! k = None) ∧
    is_Some (kwargs !! "data_path") ∧
    last (run h t (get_dataloader args config)).1 =
      Some (Entry (EGetDataloader "train" load use_gpu true mam_config kwargs)
              (Ok d)).
Proof.
  unfold get_dataloader.
  repeat (run_step; try (simpl; discriminate)).
  all: intros [= <-].
  all: match goal with H : py_kwargs _ = Ok _ |- _ =>
         apply py_kwargs_inv in H as [-> Hnone] end.
  all: eexists _, _, _, _.
  all: split; [eexists _, _; eauto|].
  all: split; [apply getattr_inv; eassumption|].
  all: split; [first [eassumption | reflexivity]|].
  all: split; [first [eassumption | reflexivity]|].
  all: split; [exact Hnone|].
  all: split; [eexists; apply py_getitem_dict_inv; eassumption|].
  all: simpl; by rewrite last_snoc.
Qed.

Lemma dataloader_constructor_arguments_witness :
  ∃ load use_gpu mam_config kwargs,
    mode_of sample_config load ∧
    setattr (vars_of_cli sample_cli_train) "gpu" (VBool true) !! "gpu"
      = Some use_gpu ∧
    py_getitem sample_config "transformer" = Ok mam_config ∧
    py_getitem sample_config "dataloader" = Ok (VDict kwargs) ∧
    (∀ k, k ∈ explicit_keywords → kwargs !! k = None) ∧
    is_Some (kwargs !! "data_path") ∧
    last (run present_env []
            (get_dataloader
               (setattr (vars_of_cli sample_cli_train) "gpu" (VBool true))
               sample_config)).1 =
      Some (Entry (EGetDataloader "train" load use_gpu true mam_config kwargs)
              (Ok 1%positive)).
Proof.
  apply (dataloader_constructor_arguments present_env []).
  vm_compute. reflexivity.
Defined.

(** X15: in duo mode a [dataloader] section without [target_path] stops
    [get_dataloader] at the second message: on a machine where the data
    path exists and the prints return, the log is the path check and the
    two prints of the acoustic data, the error is [KeyError('target_path')],
    and no dataloader is asked for. *)
Theorem duo_needs_target_path (h : env) (t : list entry)
    (args : gmap string pyval) (config runner duo_feature train_set : pyval)
    (dl : gmap string pyval) (data_path : string) :
  py_getitem config "dataloader" = Ok (VDict dl) →
  dl !! "data_path" = Some (VStr data_path) →
  dl !! "train_set" = Some train_set →
  dl !! "target_path" = None →
  py_getitem config "runner" = Ok runner →
  py_getitem runner "duo_feature" = Ok duo_feature →
  py_bool duo_feature = true →
  (∀ t p, h t (EExists p) = Ok true) →
  (∀ t m, h t (EPrint m) = Ok tt) →
  run h t (get_dataloader args config) =
  (t ++ [Entry (EExists (VStr data_path)) (Ok true);
         Entry (EPrint [VStr "[run_upstream] - Loading input data: ";
                        train_set; VStr " from "; VStr data_path]) (Ok tt);
         Entry (EPrint [VStr "[run_upstream] - getting train dataloader..."])
           (Ok tt)],
   Raise (KeyError "target_path")).
Proof.
  intros Hdl Hp Hts Htp Hrun Hduo Hb Hex Hpr. unfold get_dataloader.
  assert (py_getitem (VDict dl) "data_path" = Ok (VStr data_path)) as Hp'
    by (simpl; by rewrite Hp).
  assert (py_getitem (VDict dl) "train_set" = Ok train_set) as Hts'
    by (simpl; by rewrite Hts).
  assert (py_getitem (VDict dl) "target_path" = Raise (KeyError "target_path"))
    as Htp' by (simpl; by rewrite Htp).
  rewrite Hdl, Hrun.
  repeat run_step.
  all: repeat match goal with
       | H : _ _ (EExists _) = _ |- _ => rewrite Hex in H
       | H : _ _ (EPrint _) = _ |- _ => rewrite Hpr in H
       end.
  all: simplify_eq/=.
  all: try (rewrite Hb in *; simplify_eq/=).
  all: by rewrite <- ?app_assoc.
Qed.

Lemma duo_needs_target_path_witness :
  run present_env []
    (get_dataloader (setattr (vars_of_cli sample_cli_train) "gpu" (VBool true))
       (VDict duo_sections)) =
  ([] ++ [Entry (EExists (VStr "data/libri")) (Ok true);
          Entry (EPrint [VStr "[run_upstream] - Loading input data: ";
                         VList [VStr "train"]; VStr " from ";
                         VStr "data/libri"]) (Ok tt);
          Entry (EPrint [VStr "[run_upstream] - getting train dataloader..."])
            (Ok tt)],
   Raise (KeyError "target_path")).
Proof.
  eapply (duo_needs_target_path present_env []).
  - reflexivity.
  - reflexivity.
  - reflexivity.
  - reflexivity.
  - reflexivity.
  - reflexivity.
  - reflexivity.
  - reflexivity.
  - reflexivity.
Defined.

(** ** Dispatch, the other branches *)

Lemma dispatch_none args config v :
  args !! "run" = Some v →
  py_eq_str v "transformer" = false →
  py_eq_str v "apc" = false →
  dispatch args config = Ret tt.
Proof.
  intros Hrun Ht Ha. unfold dispatch, getattr. rewrite Hrun. simpl.
  by rewrite Ht, Ha.
Qed.

(** X16: without [--run] (and without [--resume]) [main] loads the config,
    seeds the generators and stops: its run is the loading followed by the
    seeding and nothing else, and it ends without an error whenever the
    seeding does. *)
Theorem no_run_selector_does_nothing (h : env) (c : cli_args)
    (t0 : list entry) (args : gmap string pyval) (config : pyval) :
  cli_resume c = None →
  cli_run c = None →
  run h [] (get_upstream_args c) = (t0, Ok (args, config)) →
  run h [] (main c) = run h t0 (fix_seed args) ∧
  Forall (λ en, reads_settings (entry_event en) = true ∨
                is_seed_call (entry_event en) = true) (run h [] (main c)).1.
Proof.
  intros Hres Hrun Hargs.
  destruct (get_upstream_args_fresh h c t0 args config Hres Hargs)
    as (_ & Hr & _).
  rewrite Hrun in Hr. simpl in Hr.
  assert (run h [] (main c) = run h t0 (fix_seed args)) as Hmain.
  { rewrite (run_main h c t0 args config Hargs).
    rewrite (dispatch_none args config VNone Hr); [|done|done].
    by destruct (run h t0 (fix_seed args)) as [t1 [[]|x]]. }
  split; [exact Hmain|]. rewrite Hmain.
  destruct (all_calls_run _ _ h [] (get_upstream_args_calls c))
    as (t0' & Ht0 & Hread).
  rewrite Hargs in Ht0. simpl in Ht0. subst t0'.
  destruct (all_calls_run _ _ h t0 (fix_seed_calls args)) as (t1 & -> & Hseed).
  apply Forall_app. split; (eapply Forall_impl; [eassumption|]); intros; auto.
Qed.

Lemma no_run_selector_does_nothing_witness :
  run sample_env [] (main sample_cli_no_run) =
    run sample_env (run sample_env [] (get_upstream_args sample_cli_no_run)).1
      (fix_seed (setattr (vars_of_cli sample_cli_no_run) "gpu" (VBool true))) ∧
  Forall (λ en, reads_settings (entry_event en) = true ∨
                is_seed_call (entry_event en) = true)
    (run sample_env [] (main sample_cli_no_run)).1.
Proof.
  apply (no_run_selector_does_nothing sample_env sample_cli_no_run _ _
           sample_config).
  - reflexivity.
  - reflexivity.
  - reflexivity.
Defined.

Lemma run_apc_calls seed :
  all_calls (is_apc_call seed) (run_apc seed).
Proof.
  unfold run_apc. calls.
  - by left.
  - right. by left.
  - right. right. by eexists.
Qed.

Lemma dispatch_apc_train args config v seed :
  args !! "run" = Some (VStr "apc") →
  args !! "test" = Some v →
  py_eq_str v "" = true →
  args !! "seed" = Some seed →
  dispatch args config = run_apc seed.
Proof.
  intros Hrun Htest Hv Hseed. unfold dispatch, getattr.
  rewrite Hrun. simpl. rewrite Htest. simpl. rewrite Hv. simpl.
  by rewrite Hseed.
Qed.

(** X17: when the resolved arguments select [apc] with an empty test path
    and the seeding has returned, [main] continues as [run_apc] on
    [args.seed]: it imports the runner module, constructs the runner with
    that seed and [train=True], and trains.  The config plays no part. *)
Theorem apc_training_dispatch (h : env) (c : cli_args) (t0 ts : list entry)
    (args : gmap string pyval) (config seed : pyval) :
  run h [] (get_upstream_args c) = (t0, Ok (args, config)) →
  args !! "run" = Some (VStr "apc") →
  args !! "test" = Some (VStr "") →
  args !! "seed" = Some seed →
  run h t0 (fix_seed args) = (ts, Ok tt) →
  run h [] (main c) = run h ts (run_apc seed) ∧
  (∀ config', dispatch args config' = dispatch args config) ∧
  ∃ t2, (run h [] (main c)).1 = ts ++ t2 ∧
        Forall (λ en, is_apc_call seed (entry_event en)) t2.
Proof.
  intros Hargs Hrun Htest Hseed Hfix.
  assert (∀ cfg, dispatch args cfg = run_apc seed) as Hd.
  { intros cfg. by apply (dispatch_apc_train args cfg (VStr "")). }
  assert (run h [] (main c) = run h ts (run_apc seed)) as Hmain.
  { by rewrite (run_main h c t0 args config Hargs), Hfix, Hd. }
  split; [exact Hmain|]. split; [intros; by rewrite !Hd|].
  rewrite Hmain. destruct (all_calls_run _ _ h ts (run_apc_calls seed))
    as (t2 & Ht2 & Hall).
  by exists t2.
Qed.

Lemma apc_training_dispatch_witness :
  run sample_env [] (main sample_cli_apc) =
    run sample_env
      (run sample_env (run sample_env [] (get_upstream_args sample_cli_apc)).1
         (fix_seed (setattr (vars_of_cli sample_cli_apc) "gpu" (VBool true)))).1
      (run_apc (VInt 1337)) ∧
  (∀ config',
      dispatch (setattr (vars_of_cli sample_cli_apc) "gpu" (VBool true)) config'
      = dispatch (setattr (vars_of_cli sample_cli_apc) "gpu" (VBool true))
          sample_config) ∧
  ∃ t2,
    (run sample_env [] (main sample_cli_apc)).1 =
      (run sample_env (run sample_env [] (get_upstream_args sample_cli_apc)).1
         (fix_seed (setattr (vars_of_cli sample_cli_apc) "gpu" (VBool true)))).1
      ++ t2 ∧
    Forall (λ en, is_apc_call (VInt 1337) (entry_event en)) t2.
Proof.
  apply (apc_training_dispatch sample_env sample_cli_apc
           (run sample_env [] (get_upstream_args sample_cli_apc)).1).
  - reflexivity.
  - reflexivity.
  - reflexivity.
  - reflexivity.
  - reflexivity.
Defined.

(** ** Resuming, the command line *)

Lemma vars_of_cli_with_cpu c b k :
  k ≠ "cpu" → vars_of_cli (with_cpu c b) !! k = vars_of_cli c !! k.
Proof.
  intros Hk. unfold vars_of_cli. simpl.
  rewrite !lookup_insert. repeat case_decide; congruence.
Qed.

(** X18: on the resume branch [--cpu] has no effect.  With or without the
    flag the same calls are made with the same answers, the run ends the
    same way, and the returned arguments agree on every field but [cpu]
    itself: [gpu] is whatever the checkpoint stored, and line 64, which
    derives it from the flag, is not reached. *)
Theorem resume_ignores_cpu_flag (h : env) (c : cli_args) (resume : string)
    (b : bool) :
  cli_resume c = Some resume →
  (run h [] (get_upstream_args (with_cpu c b))).1 =
    (run h [] (get_upstream_args c)).1 ∧
  match (run h [] (get_upstream_args (with_cpu c b))).2,
        (run h [] (get_upstream_args c)).2 with
  | Ok (args', config'), Ok (args, config) =>
      config' = config ∧ args' !! "gpu" = args !! "gpu" ∧
      ∀ k, k ≠ "cpu" → args' !! k = args !! k
  | Raise x', Raise x => x' = x
  | _, _ => False
  end.
Proof.
  intros Hc.
  destruct (run h [] (resolve_resume resume)) as [t1 [sel|x]] eqn:Hr.
  - rewrite (run_get_upstream_args_resume h (with_cpu c b) resume t1 sel Hc Hr).
    rewrite (run_get_upstream_args_resume h c resume t1 sel Hc Hr).
    split; [done|]. simpl.
    destruct (h t1 (ETorchLoad sel)) as [ckpt|x]; [|done]. simpl.
    unfold load_settings, update_args.
    destruct (py_getitem ckpt "Settings") as [settings|x]; simpl; [|done].
    destruct (py_getitem settings "Paras") as [paras|x]; simpl; [|done].
    destruct (py_vars paras) as [new_dict|x]; simpl; [|done].
    destruct (py_getitem settings "Config") as [config|x]; simpl; [|done].
    assert (∀ k, k ≠ "cpu" →
      setattr (new_dict ∪ vars_of_cli (with_cpu c b)) "resume" (VStr sel) !! k =
      setattr (new_dict ∪ vars_of_cli c) "resume" (VStr sel) !! k) as Hk.
    { intros k Hk. unfold setattr.
      destruct (decide (k = "resume")) as [->|Hne].
      - by rewrite !lookup_insert_eq.
      - rewrite !lookup_insert_ne by done.
        rewrite !lookup_union. by rewrite vars_of_cli_with_cpu. }
    split; [done|]. split; [by apply Hk|done].
  - unfold get_upstream_args.
    change (cli_resume (with_cpu c b)) with (cli_resume c).
    rewrite Hc, !run_bind, Hr. by simpl.
Qed.

Lemma resume_ignores_cpu_flag_witness :
  (run sample_env [] (get_upstream_args (with_cpu sample_cli_resume true))).1 =
    (run sample_env [] (get_upstream_args sample_cli_resume)).1 ∧
  match (run sample_env [] (get_upstream_args (with_cpu sample_cli_resume true))).2,
        (run sample_env [] (get_upstream_args sample_cli_resume)).2 with
  | Ok (args', config'), Ok (args, config) =>
      config' = config ∧ args' !! "gpu" = args !! "gpu" ∧
      ∀ k, k ≠ "cpu" → args' !! k = args !! k
  | Raise x', Raise x => x' = x
  | _, _ => False
  end.
Proof.
  apply (resume_ignores_cpu_flag sample_env sample_cli_resume "exp" true).
  reflexivity.
Defined.

(** ** Seeding *)

Lemma fix_seed_returns (h : env) t args t1 :
  run h t (fix_seed args) = (t1, Ok tt) →
  ∃ seed cuda, args !! "seed" = Some seed ∧ t1 = t ++ seeding seed cuda.
Proof.
  unfold fix_seed.
  repeat (run_step; try (simpl; discriminate)).
  all: intros [= <-].
  all: cbv beta iota delta [resp] in *.
  all: repeat match goal with u : unit |- _ => destruct u end.
  all: match goal with H : getattr _ _ = Ok ?s |- _ =>
         apply getattr_inv in H; exists s end.
  all: match goal with H : _ _ ECudaAvailable = Ok ?b |- _ => exists b end.
  all: split; [done|]; unfold seeding; simpl; by rewrite <- ?app_assoc.
Qed.

Lemma seeding_seed_calls seed cuda :
  Forall (λ en, is_seed_call (entry_event en) = true) (seeding seed cuda).
Proof. destruct cuda; unfold seeding; simpl; by repeat constructor. Qed.

Lemma classified_entry (t : list entry) i en :
  Forall (λ en, reads_settings (entry_event en) = true ∨
                is_seed_call (entry_event en) = true) t →
  t !! i = Some en →
  reads_settings (entry_event en) = false →
  is_seed_call (entry_event en) = false →
  False.
Proof.
  intros Hall Hi Hr Hs.
  destruct (proj1 (Forall_lookup _ _) Hall i en Hi); congruence.
Qed.

(** X19: nothing but loading the settings happens before the generators
    are seeded.  Any call of [main] that neither reads the settings nor
    belongs to the seeding comes after the complete seeding: [random],
    [numpy] and [torch] (and CUDA, when available) were seeded with the
    resolved [args.seed], each call returning, and both cuDNN flags were
    set. *)
Theorem seeding_precedes_work (h : env) (c : cli_args) (i : nat) (en : entry) :
  (run h [] (main c)).1 !! i = Some en →
  reads_settings (entry_event en) = false →
  is_seed_call (entry_event en) = false →
  ∃ t0 args config seed cuda t2,
    run h [] (get_upstream_args c) = (t0, Ok (args, config)) ∧
    args !! "seed" = Some seed ∧
    (run h [] (main c)).1 = t0 ++ seeding seed cuda ++ t2 ∧
    (length t0 + length (seeding seed cuda) ≤ i)%nat.
Proof.
  intros Hi Hr Hs.
  destruct (all_calls_run _ _ h [] (get_upstream_args_calls c))
    as (t0' & Ht0 & Hread).
  destruct (run h [] (get_upstream_args c)) as [t0 [[args config]|x]] eqn:Hargs.
  - simpl in Ht0. subst t0'.
    destruct (all_calls_run _ _ h t0 (fix_seed_calls args)) as (ts' & Hts & Hseed).
    rewrite (run_main h c t0 args config Hargs) in Hi |- *.
    destruct (run h t0 (fix_seed args)) as [ts [[]|x]] eqn:Hfix.
    + destruct (fix_seed_returns h t0 args ts Hfix) as (seed & cuda & Hsd & ->).
      destruct (run_extends h (dispatch args config) (t0 ++ seeding seed cuda))
        as [t2 Ht2].
      exists t0, args, config, seed, cuda, t2.
      rewrite Ht2, <- app_assoc. repeat split; try done.
      rewrite Ht2 in Hi.
      destruct (decide (i < length (t0 ++ seeding seed cuda))%nat) as [Hlt|Hge].
      * rewrite lookup_app_l in Hi by done. exfalso.
        eapply (classified_entry (t0 ++ seeding seed cuda)); try eassumption.
        apply Forall_app. split.
        -- eapply Forall_impl; [exact Hread|]. intros; by left.
        -- eapply Forall_impl; [apply seeding_seed_calls|]. intros; by right.
      * rewrite length_app in Hge. lia.
    + exfalso. simpl in Hts, Hi. subst ts.
      eapply (classified_entry (t0 ++ ts')); try eassumption.
      apply Forall_app. split.
      * eapply Forall_impl; [exact Hread|]. intros; by left.
      * eapply Forall_impl; [exact Hseed|]. intros; by right.
  - exfalso. simpl in Ht0. subst t0'.
    unfold main in Hi. rewrite run_bind, Hargs in Hi. simpl in Hi.
    eapply (classified_entry t0); try eassumption.
    eapply Forall_impl; [exact Hread|]. intros; by left.
Qed.

Lemma seeding_precedes_work_witness :
  ∃ t0 args config seed cuda t2,
    run sample_env [] (get_upstream_args sample_cli_apc)
      = (t0, Ok (args, config)) ∧
    args !! "seed" = Some seed ∧
    (run sample_env [] (main sample_cli_apc)).1 = t0 ++ seeding seed cuda ++ t2 ∧
    (length t0 + length (seeding seed cuda) ≤ 9)%nat.
Proof.
  apply (seeding_precedes_work sample_env sample_cli_apc 9
           (Entry (EImport "rnn.runner") (Ok tt))).
  - reflexivity.
  - reflexivity.
  - reflexivity.
Defined.

(** ** Testing, the config *)

(** X20: the test path reads [config['transformer']['input_dim']] before it
    touches the model.  When the resolved arguments select [transformer]
    with a non-empty test path, the seeding has returned and that lookup
    fails (a config without a [transformer] section, say), [main] ends with
    the lookup's error and its log ends with the seeding: the model module
    is not imported and no model is built. *)
Theorem test_needs_input_dim (h : env) (c : cli_args) (t0 ts : list entry)
    (args : gmap string pyval) (config v : pyval) (x : exn) :
  run h [] (get_upstream_args c) = (t0, Ok (args, config)) →
  args !! "run" = Some (VStr "transformer") →
  args !! "test" = Some v →
  py_eq_str v "" = false →
  run h t0 (fix_seed args) = (ts, Ok tt) →
  (tr ← py_getitem config "transformer"; py_getitem tr "input_dim") = Raise x →
  run h [] (main c) = (ts, Raise x).
Proof.
  intros Hargs Hrun Htest Hv Hfix Hx.
  rewrite (run_main h c t0 args config Hargs), Hfix.
  rewrite (dispatch_transformer_test args config v Hrun Htest Hv).
  destruct (py_getitem config "transformer") as [tr|y] eqn:Htr;
    simpl in Hx; rewrite run_lift_bind; cbv beta iota.
  - rewrite run_lift_bind, Hx. reflexivity.
  - by injection Hx as ->.
Qed.

Lemma test_needs_input_dim_witness :
  run bare_config_env [] (main sample_cli_test) =
  ([Entry (EOpen (VStr "config/tera.yaml")) (Ok 1%positive);
    Entry (EYamlLoad 1%positive) (Ok sample_config_bare);
    Entry (EParsePruneHeads sample_config_bare) (Ok sample_config_bare)]
   ++ seeding (VInt 1337) false,
   Raise (KeyError "transformer")).
Proof.
  apply (test_needs_input_dim bare_config_env sample_cli_test
           [Entry (EOpen (VStr "config/tera.yaml")) (Ok 1%positive);
            Entry (EYamlLoad 1%positive) (Ok sample_config_bare);
            Entry (EParsePruneHeads sample_config_bare) (Ok sample_config_bare)]
           _ (setattr (vars_of_cli sample_cli_test) "gpu" (VBool true))
           sample_config_bare (VStr "ckpt/tera.ckpt")).
  - reflexivity.
  - reflexivity.
  - reflexivity.
  - reflexivity.
  - reflexivity.
  - reflexivity.
Defined.

(** ** Training, the order of the calls *)

Lemma last_snoc_inv {A} (t l : list A) (x : A) :
  (length t < length (t ++ l))%nat →
  last (t ++ l) = Some x →
  ∃ l', l = l' ++ [x].
Proof.
  intros Hlen Hlast. destruct l as [|y l _] using rev_ind.
  - rewrite app_nil_r in Hlen. lia.
  - rewrite app_assoc, last_snoc in Hlast. injection Hlast as ->. by exists l.
Qed.

(** X21: a transformer training run that ends without an error, after its
    setup block, ends with exactly four calls: the dataloader constructor
    (the online one, or [get_Dataloader] with [split='train'] and
    [run_mam=True]), then [Runner(args, config, dataloader, ckpdir)] on the
    arguments and the directory of the setup block and on the dataloader
    just returned, then [set_model] and [train] on that runner. *)
Theorem training_run_order (h : env) (t t1 : list entry)
    (args args' : gmap string pyval) (config ckpdir : pyval) :
  run h t (run_transformer_setup args) = (t1, Ok (args', ckpdir)) →
  (run h t (run_transformer args config)).2 = Ok tt →
  ∃ t2 built dl runner,
    (built = Entry (EGetOnlineDataloader args' config true) (Ok dl) ∨
     ∃ load use_gpu mam_config kwargs,
       built = Entry (EGetDataloader "train" load use_gpu true mam_config kwargs)
                 (Ok dl)) ∧
    (run h t (run_transformer args config)).1 =
      t1 ++ t2 ++
      [built;
       Entry (ETransformerRunner args' config dl ckpdir) (Ok runner);
       Entry (ESetModel runner) (Ok tt);
       Entry (ETrain runner) (Ok tt)].
Proof.
  intros Hs. rewrite (run_transformer_after_setup h t args config t1 args' ckpdir Hs).
  rewrite run_lift_bind.
  destruct (py_in "online" config) as [[|]|x]; cbv beta iota; [| |done].
  - unfold run_transformer_train.
    repeat (run_step; try (simpl; discriminate)).
    intros _. cbv beta iota delta [resp] in *.
    repeat match goal with u : unit |- _ => destruct u end.
    eexists [], _, _, _. split; [left; reflexivity|].
    simpl. by rewrite <- !app_assoc.
  - rewrite run_bind.
    destruct (run h t1 (get_dataloader args' config)) as [tg [dl|x]] eqn:Hg;
      [|done].
    destruct (get_dataloader_returns h t1 args' config dl)
      as (load & use_gpu & mam & kwargs & _ & Hlen & Hlast);
      [by rewrite Hg|].
    destruct (run_extends h (get_dataloader args' config) t1) as [tl Htl].
    rewrite Hg in Hlen, Hlast, Htl. simpl in Hlen, Hlast, Htl. subst tg.
    destruct (last_snoc_inv t1 tl _ Hlen Hlast) as [t2 ->].
    unfold run_transformer_train.
    repeat (run_step; try (simpl; discriminate)).
    intros _. cbv beta iota delta [resp] in *.
    repeat match goal with u : unit |- _ => destruct u end.
    eexists t2, _, dl, _. split; [right; by eexists _, _, _, _|].
    simpl. by rewrite <- !app_assoc.
Qed.

Lemma training_run_order_witness :
  ∃ t2 built dl runner,
    (built = Entry (EGetOnlineDataloader
                      (setattr (setattr (vars_of_cli sample_cli_train) "gpu"
                                  (VBool true)) "name" (VStr "run_7"))
                      sample_config true) (Ok dl) ∨
     ∃ load use_gpu mam_config kwargs,
       built = Entry (EGetDataloader "train" load use_gpu true mam_config kwargs)
                 (Ok dl)) ∧
    (run present_env []
       (run_transformer
          (setattr (vars_of_cli sample_cli_train) "gpu" (VBool true))
          sample_config)).1 =
      (run present_env []
         (run_transformer_setup
            (setattr (vars_of_cli sample_cli_train) "gpu" (VBool true)))).1
      ++ t2 ++
      [built;
       Entry (ETransformerRunner
                (setattr (setattr (vars_of_cli sample_cli_train) "gpu"
                            (VBool true)) "name" (VStr "run_7"))
                sample_config dl (VStr "result/result_transformer/run_7"))
         (Ok runner);
       Entry (ESetModel runner) (Ok tt);
       Entry (ETrain runner) (Ok tt)].
Proof.
  apply (training_run_order present_env []).
  - reflexivity.
  - reflexivity.
Defined.

(** X22: [run_transformer] tests the data path only after its setup block.
    When the setup has completed, the config has no [online] section and
    the configured data path does not exist, the run ends in the data-path
    error right after the existence test, with no dataloader or runner call,
    and what the setup block did stays done: the log still holds the copy of
    the config file into the checkpoint directory. *)
Theorem data_path_checked_after_setup (h : env) (t t1 : list entry)
    (args args' : gmap string pyval) (d : gmap string pyval)
    (dl data_path ckpdir : pyval) :
  run h t (run_transformer_setup args) = (t1, Ok (args', ckpdir)) →
  d !! "online" = None →
  d !! "dataloader" = Some dl →
  py_getitem dl "data_path" = Ok data_path →
  h t1 (EExists data_path) = Ok false →
  run h t (run_transformer args (VDict d)) =
    (t1 ++ [Entry (EExists data_path) (Ok false)],
     Raise (RuntimeError "[run_upstream] - Data path not valid:" data_path)) ∧
  ∃ dir cfg t',
    ckpdir = VStr dir ∧ args !! "config" = Some (VStr cfg) ∧ t1 = t ++ t' ∧
    Entry (ECopyfile cfg (path_join dir (basename cfg))) (Ok tt) ∈ t'.
Proof.
  intros Hs Hon Hdl Hp Hex. split.
  - rewrite (run_transformer_after_setup h t args _ t1 args' ckpdir Hs).
    simpl py_in. rewrite bool_decide_false by (by rewrite Hon; intros [? ?]).
    rewrite run_lift_bind. cbv beta iota.
    rewrite run_bind. unfold get_dataloader. simpl py_getitem. rewrite Hdl.
    simpl. rewrite Hp. simpl. rewrite Hex. reflexivity.
  - destruct (setup_copies h t args args' ckpdir)
      as (dir & cfg & pre & Hdir & Hcfg & _ & _ & Htrace); [by rewrite Hs|].
    rewrite Hs in Htrace. simpl in Htrace.
    eexists dir, cfg, _. split; [done|]. split; [done|].
    split; [exact Htrace|].
    apply elem_of_app. right. by left.
Qed.

Lemma data_path_checked_after_setup_witness :
  run sample_env []
    (run_transformer (setattr (vars_of_cli sample_cli_train) "gpu" (VBool true))
       (VDict sample_sections)) =
    ((run sample_env []
        (run_transformer_setup
           (setattr (vars_of_cli sample_cli_train) "gpu" (VBool true)))).1
     ++ [Entry (EExists (VStr "data/libri")) (Ok false)],
     Raise (RuntimeError "[run_upstream] - Data path not valid:"
              (VStr "data/libri"))) ∧
  ∃ dir cfg t',
    VStr "result/result_transformer/run_7" = VStr dir ∧
    setattr (vars_of_cli sample_cli_train) "gpu" (VBool true) !! "config"
      = Some (VStr cfg) ∧
    (run sample_env []
        (run_transformer_setup
           (setattr (vars_of_cli sample_cli_train) "gpu" (VBool true)))).1
      = [] ++ t' ∧
    Entry (ECopyfile cfg (path_join dir (basename cfg))) (Ok tt) ∈ t'.
Proof.
  apply (data_path_checked_after_setup sample_env [] _ _
           (setattr (setattr (vars_of_cli sample_cli_train) "gpu" (VBool true))
              "name" (VStr "run_7"))
           sample_sections
           (VDict (list_to_map
              [("data_path", VStr "data/libri");
               ("train_set", VList [VStr "train"])]))).
  - reflexivity.
  - reflexivity.
  - reflexivity.
  - reflexivity.
  - reflexivity.
Defined.
